(** * Brent oil event analysis: dashboard glue and the impact pipeline

  A shallow embedding of the React dashboard of the repository
  (App.js, the Dashboard page, PriceChartWithEvents.js) and of the
  event-impact pipeline served by the Flask backend, followed by the
  properties the specification states about them.

  JavaScript numbers that reach the code as JSON numbers are finite;
  they are embedded in [Q], on which comparison and the sign of a
  difference coincide with the IEEE results.  [undefined] is the [None]
  of an [option]; [NaN] is the [None] of a numeric [option]. *)

From Stdlib Require Import List ZArith QArith Qabs Bool String Ascii.
From Stdlib Require Import Permutation Sorted Lia Reals Qreals Psatz.
Import ListNotations.

Set Implicit Arguments.
Set Warnings "-register-all".

(* ================================================================== *)
(** * Part I: definitions                                              *)
(* ================================================================== *)

(** ** Stable sorting with a comparison function *)

Module Stable.

(** [Array.prototype.sort(comparefn)] is a stable sort (ECMAScript 2019),
    as is the sort of the backend's language: [x] goes before [y] when
    [comparefn(x, y) < 0], and elements that compare equal keep their
    input order.  The head [x] precedes every element of the sorted rest
    in the input, so it is placed before the first [y] with
    [comparefn(x, y) <= 0]. *)
Fixpoint insert (A : Type) (comparefn : A -> A -> Q) (x : A) (sorted : list A)
  : list A :=
  match sorted with
  | [] => [x]
  | y :: rest =>
      if Qle_bool (comparefn x y) 0 then x :: y :: rest
      else y :: insert comparefn x rest
  end.

Fixpoint sort (A : Type) (comparefn : A -> A -> Q) (l : list A) : list A :=
  match l with
  | [] => []
  | x :: rest => insert comparefn x (sort comparefn rest)
  end.

End Stable.

(** ** JavaScript values as they come out of [response.json()] *)

Module Js.

Inductive value : Type :=
  | Null
  | Bool (b : bool)
  | Num (q : Q)
  | Str (s : string)
  | Arr (items : list value)
  | Obj (fields : list (string * value)).

(** ToBoolean: [null], [false], [0] and the empty string are falsy. *)
Definition truthy (v : value) : bool :=
  match v with
  | Null => false
  | Bool b => b
  | Num q => negb (Qeq_bool q 0)
  | Str s => negb (String.eqb s EmptyString)
  | Arr _ => true
  | Obj _ => true
  end.

Fixpoint lookup (k : string) (fields : list (string * value)) : option value :=
  match fields with
  | [] => None
  | (k', v) :: rest => if String.eqb k k' then Some v else lookup k rest
  end.

(** [v?.k] for an own data property [k]; [None] is [undefined].  Only
    objects carry the keys the dashboard reads. *)
Definition get (v : value) (k : string) : option value :=
  match v with
  | Obj fields => lookup k fields
  | _ => None
  end.

(** [x || d] where [x] may be [undefined]. *)
Definition or_else (x : option value) (d : value) : value :=
  match x with
  | Some v => if truthy v then v else d
  | None => d
  end.

(** [x.length] of an array or a string.  The other values give
    [undefined]: an object is taken to have no own [length] property (the
    payloads read this way are the backend's arrays; an array-like
    object lies outside this model). *)
Definition length_of (v : value) : option nat :=
  match v with
  | Arr items => Some (List.length items)
  | Str s => Some (String.length s)
  | _ => None
  end.

(** [x[i]]: an array element or a one-character string; [undefined]
    out of range or on any other value. *)
Definition index (v : value) (i : nat) : option value :=
  match v with
  | Arr items => nth_error items i
  | Str s => match String.get i s with
             | Some c => Some (Str (String c EmptyString))
             | None => None
             end
  | _ => None
  end.

(** [Math.min(a, b)] on two lengths, [NaN] when either is [undefined];
    [Array.from({ length })] takes [ToLength(NaN) = 0]. *)
Definition min_length (a b : option nat) : nat :=
  match a, b with
  | Some n, Some m => Nat.min n m
  | _, _ => 0%nat
  end.

(** The outcome of one promise under [Promise.allSettled]. *)
Inductive reason : Type :=
  | NetworkFailure
  | BadJson
  | RequestFailed (status : Z) (body200 : string).

Inductive settled : Type :=
  | Fulfilled (v : value)
  | Rejected (why : reason).

Definition fulfilled (s : settled) : bool :=
  match s with Fulfilled _ => true | Rejected _ => false end.

Definition rejected (s : settled) : bool := negb (fulfilled s).

(** [xs.filter(Boolean)] on an array of objects and [null]s. *)
Fixpoint filterBoolean (A : Type) (xs : list (option A)) : list A :=
  match xs with
  | [] => []
  | Some x :: rest => x :: filterBoolean rest
  | None :: rest => filterBoolean rest
  end.

End Js.

(** ** App.js *)

Module App.
Import Js.

(** What [fetch(url)] yields: a network failure or a response, whose
    body parses as JSON or not. *)
Inductive fetched : Type :=
  | Failed
  | Response (status : Z) (body : string) (json : option value).

Definition ok (status : Z) : bool := ((200 <=? status) && (status <=? 299))%Z.

(** [fetchJson(url, allowNotFound)]. *)
Definition fetchJson (r : fetched) (allowNotFound : bool) : settled :=
  match r with
  | Failed => Rejected NetworkFailure
  | Response status body json =>
      if negb (ok status) then
        if allowNotFound && (status =? 404)%Z then Fulfilled Null
        else Rejected (RequestFailed status (substring 0 200 body))
      else match json with
           | Some v => Fulfilled v
           | None => Rejected BadJson
           end
  end.

Record Data : Type := {
  prices : value;
  events : value;
  analysis : value;
  changePoints : value;
  volatility : value;
  correlations : value
  }.

Record State : Type := {
  loading : bool;
  error : option string;
  data : Data;
  lastUpdated : option string
  }.

Definition setLoading (b : bool) (st : State) : State :=
  {| loading := b; error := error st; data := data st;
     lastUpdated := lastUpdated st |}.

Definition setError (e : option string) (st : State) : State :=
  {| loading := loading st; error := e; data := data st;
     lastUpdated := lastUpdated st |}.

Definition setData (d : Data) (st : State) : State :=
  {| loading := loading st; error := error st; data := d;
     lastUpdated := lastUpdated st |}.

Definition setLastUpdated (t : string) (st : State) : State :=
  {| loading := loading st; error := error st; data := data st;
     lastUpdated := Some t |}.

Definition emptyPrices : value :=
  Obj [("dates"%string, Arr []); ("prices"%string, Arr []);
       ("stats"%string, Obj []); ("count"%string, Num 0);
       ("date_range"%string, Obj [])].

Definition emptyEvents : value :=
  Obj [("events"%string, Arr []); ("type_distribution"%string, Obj []);
       ("count"%string, Num 0)].

Definition initialData : Data :=
  {| prices := emptyPrices; events := emptyEvents; analysis := Null;
     changePoints := Arr []; volatility := Null; correlations := Arr [] |}.

(** The six results of the [Promise.allSettled] call, in its order. *)
Record Results : Type := {
  pricesResult : settled;
  eventsResult : settled;
  summaryResult : settled;
  cpResult : settled;
  volResult : settled;
  corrResult : settled
  }.

(** [r.status === 'fulfilled' && r.value ? r.value : d] *)
Definition valueOrDefault (r : settled) (d : value) : value :=
  match r with
  | Fulfilled v => if truthy v then v else d
  | Rejected _ => d
  end.

(** [r.status === 'fulfilled' ? r.value : null] *)
Definition valueOrNull (r : settled) : value :=
  match r with
  | Fulfilled v => v
  | Rejected _ => Null
  end.

(** [r.status === 'fulfilled' ? (r.value?.k || []) : []] *)
Definition fieldOrEmpty (r : settled) (k : string) : value :=
  match r with
  | Fulfilled v => or_else (get v k) (Arr [])
  | Rejected _ => Arr []
  end.

Definition nextData (r : Results) : Data :=
  {| prices := valueOrDefault (pricesResult r) emptyPrices;
     events := valueOrDefault (eventsResult r) emptyEvents;
     analysis := valueOrNull (summaryResult r);
     changePoints := fieldOrEmpty (cpResult r) "change_points";
     volatility := valueOrNull (volResult r);
     correlations := fieldOrEmpty (corrResult r) "correlations" |}.

Definition pushIf (c : bool) (item : string) (errors : list string) : list string :=
  if c then errors ++ [item] else errors.

Definition errors (r : Results) : list string :=
  pushIf (rejected (corrResult r)) "correlation"
    (pushIf (rejected (volResult r)) "volatility"
      (pushIf (rejected (cpResult r)) "change point"
        (pushIf (rejected (summaryResult r)) "summary"
          (pushIf (rejected (eventsResult r)) "event"
            (pushIf (rejected (pricesResult r)) "price" []))))).

Definition criticalErrors (r : Results) : list string :=
  filter (fun item => String.eqb item "price" || String.eqb item "event")
         (errors r).

Definition reportCritical (r : Results) (st : State) : State :=
  if (0 <? List.length (criticalErrors r))%nat then
    setError (Some (append "Partial data load: "
                      (append (String.concat ", " (criticalErrors r)) ".")))
             st
  else st.

(** The state once [fetchAllData] has run to its [finally].  No
    statement of the [try] block throws ([fetchJson] is [async], and
    [Promise.allSettled] never rejects), so the [catch] arm is dead. *)
Definition fetchAllData (now : string) (r : Results) (st : State) : State :=
  setLoading false
    (setLastUpdated now
      (setData (nextData r)
        (reportCritical r
          (setError None
            (setLoading true st))))).

(** *** Dates shown on the axes *)

Record DateOptions : Type := {
  year : option string;
  month : option string;
  day : option string
  }.

Definition override (A : Type) (base over : option A) : option A :=
  match over with Some _ => over | None => base end.

(** [{ year: 'numeric', month: 'short', day: 'numeric', ...options }] *)
Definition spread (options : DateOptions) : DateOptions :=
  {| year := override (Some "numeric"%string) (year options);
     month := override (Some "short"%string) (month options);
     day := override (Some "numeric"%string) (day options) |}.

(** The host's [Date]: parsing ([None] is an invalid date) and the
    locale formatter. *)
Record DateHost : Type := {
  newDate : value -> option Z;
  toLocaleDateString : Z -> DateOptions -> string
  }.

Definition formatDate (host : DateHost) (dateString : option value)
           (options : DateOptions) : string :=
  match dateString with
  | None => "N/A"
  | Some v =>
      if negb (truthy v) then "N/A"
      else match newDate host v with
           | None => "N/A"
           | Some t => toLocaleDateString host t (spread options)
           end
  end.

Definition axisLabel : DateOptions :=
  {| year := Some "2-digit"%string; month := Some "short"%string; day := None |}.

(** *** priceSeries *)

Record PricePoint : Type := {
  date : option value;
  dateLabel : string;
  price : option value
  }.

Definition priceSeries (host : DateHost) (pricesPayload : value) : list PricePoint :=
  let dates := or_else (get pricesPayload "dates") (Arr []) in
  let prices := or_else (get pricesPayload "prices") (Arr []) in
  let count := min_length (length_of dates) (length_of prices) in
  map (fun i =>
       {| date := index dates i;
          dateLabel := formatDate host (index dates i) axisLabel;
          price := index prices i |})
    (seq 0 count).

(** *** impactSeries and the list of top impact events *)

(** A row of the correlation payload, with numeric [price_change] and
    [magnitude]; a row names its event under [event] or [title]. *)
Record CorrelationRow : Type := {
  row_event : string;
  row_title : string;
  row_date : string;
  row_price_change : Q;
  row_magnitude : Q;
  row_type : string
}.

Record ImpactItem : Type := {
  title : string;
  idate : string;
  idateLabel : string;
  price_change : Q;
  magnitude : Q;
  type : string;
  size : Q
}.

Definition Qmax (a b : Q) : Q := if Qle_bool a b then b else a.
Definition Qmin (a b : Q) : Q := if Qle_bool a b then a else b.

Definition impactSeries (host : DateHost) (correlations : list CorrelationRow)
  : list ImpactItem :=
  map (fun eventItem =>
         {| title := if negb (String.eqb (row_event eventItem) EmptyString)
                     then row_event eventItem else row_title eventItem;
            idate := row_date eventItem;
            idateLabel := formatDate host (Some (Str (row_date eventItem))) axisLabel;
            price_change := row_price_change eventItem;
            magnitude := row_magnitude eventItem;
            type := row_type eventItem;
            size := Qmax 4 (Qmin 40 (Qabs (row_magnitude eventItem))) |})
      correlations.

(** [(a, b) => Math.abs(b.price_change) - Math.abs(a.price_change)] *)
Definition byImpact (a b : ImpactItem) : Q :=
  Qabs (price_change b) - Qabs (price_change a).

(** [impactSeries.slice().sort(...)] *)
Definition sortedImpacts (items : list ImpactItem) : list ImpactItem :=
  Stable.sort byImpact items.

(** [impactSeries.slice().sort(...).slice(0, 6)] *)
Definition topImpactEvents (items : list ImpactItem) : list ImpactItem :=
  firstn 6 (sortedImpacts items).

(** *** The six requests of fetchAllData *)

(** What the six [fetch] calls yield, in the order of the array handed
    to [Promise.allSettled]. *)
Record Responses : Type := {
  pricesResponse : fetched;
  eventsResponse : fetched;
  summaryResponse : fetched;
  cpResponse : fetched;
  volResponse : fetched;
  corrResponse : fetched
}.

(** Prices and events are fetched without [allowNotFound], the four
    analysis endpoints with it. *)
Definition allSettled (f : Responses) : Results :=
  {| pricesResult := fetchJson (pricesResponse f) false;
     eventsResult := fetchJson (eventsResponse f) false;
     summaryResult := fetchJson (summaryResponse f) true;
     cpResult := fetchJson (cpResponse f) true;
     volResult := fetchJson (volResponse f) true;
     corrResult := fetchJson (corrResponse f) true |}.

(** [fetchAllData] from the responses on. *)
Definition fetchAllDataFrom (now : string) (f : Responses) (st : State) : State :=
  fetchAllData now (allSettled f) st.

(** *** priceMap and eventMarkers *)

(** SameValueZero, the key equality of [Map].  Arrays and objects are
    equal only to themselves, and the keys compared here are distinct
    results of [JSON.parse]. *)
Definition sameValueZero (a b : option value) : bool :=
  match a, b with
  | None, None => true
  | Some Null, Some Null => true
  | Some (Bool x), Some (Bool y) => Bool.eqb x y
  | Some (Num x), Some (Num y) => Qeq_bool x y
  | Some (Str x), Some (Str y) => String.eqb x y
  | _, _ => false
  end.

(** A [Map], as its entries in insertion order. *)
Definition PriceMap : Type := list (option value * option value).

(** [map.set(k, v)]: replaces the value of an existing key in place,
    appends a new key. *)
Fixpoint mapSet (k v : option value) (m : PriceMap) : PriceMap :=
  match m with
  | [] => [(k, v)]
  | (k', v') :: rest =>
      if sameValueZero k' k then (k', v) :: rest
      else (k', v') :: mapSet k v rest
  end.

(** [map.get(k)]: [undefined] for a missing key. *)
Fixpoint mapGet (k : option value) (m : PriceMap) : option value :=
  match m with
  | [] => None
  | (k', v) :: rest => if sameValueZero k' k then v else mapGet k rest
  end.

Definition priceMap (series : list PricePoint) : PriceMap :=
  fold_left (fun m point => mapSet (date point) (price point) m) series [].

(** An entry of [data.events.events]. *)
Record EventItem : Type := {
  ev_date : option value;
  ev_title : option value;
  ev_type : option value
}.

Record EventMarker : Type := {
  m_date : option value;
  m_dateLabel : string;
  m_price : value;
  m_title : option value;
  m_type : option value
}.

Definition eventMarker (host : DateHost) (m : PriceMap) (eventItem : EventItem)
  : option EventMarker :=
  match mapGet (ev_date eventItem) m with
  | None => None
  | Some p =>
      Some {| m_date := ev_date eventItem;
              m_dateLabel := formatDate host (ev_date eventItem) axisLabel;
              m_price := p;
              m_title := ev_title eventItem;
              m_type := ev_type eventItem |}
  end.

Definition eventMarkers (host : DateHost) (m : PriceMap) (eventItems : list EventItem)
  : list EventMarker :=
  filterBoolean (map (eventMarker host m) eventItems).

(** *** volatilitySeries and the event volatility bars *)

(** [x?.k] where [x] may be [undefined]. *)
Definition getOpt (x : option value) (k : string) : option value :=
  match x with
  | Some v => get v k
  | None => None
  end.

Record VolatilityPoint : Type := {
  v_date : option value;
  v_dateLabel : string;
  v_volatility : option value
}.

Definition volatilitySeries (host : DateHost) (volatilityPayload : value)
  : list VolatilityPoint :=
  let dates :=
    or_else (getOpt (get volatilityPayload "volatility_series") "dates") (Arr []) in
  let values :=
    or_else (getOpt (get volatilityPayload "volatility_series") "volatility") (Arr []) in
  let count := min_length (length_of dates) (length_of values) in
  map (fun i =>
         {| v_date := index dates i;
            v_dateLabel := formatDate host (index dates i) axisLabel;
            v_volatility := index values i |})
      (seq 0 count).

(** An entry of [data.volatility.event_volatility]. *)
Record EventVolatility : Type := {
  evol_event : string;
  evol_change : option Q
}.

Record Bar : Type := {
  name : string;
  volatilityChange : Q
}.

(** [event.length > 16 ? `${event.substring(0, 16)}...` : event] *)
Definition barName (event : string) : string :=
  if (16 <? String.length event)%nat
  then append (substring 0 16 event) "..."
  else event.

(** [x || 0] on a number that may be missing. *)
Definition orZero (x : option Q) : Q :=
  match x with Some q => q | None => 0 end.

(** The data of the event volatility bar chart. *)
Definition eventVolatilityBars (event_volatility : option (list EventVolatility))
  : list Bar :=
  map (fun eventItem =>
         {| name := barName (evol_event eventItem);
            volatilityChange := orZero (evol_change eventItem) |})
      (firstn 6 (match event_volatility with Some l => l | None => [] end)).

(** *** Vocabulary of the statements about App.js, and sample inputs *)

(** The banner text as a function of the two critical requests alone. *)
Definition banner (pricesFailed eventsFailed : bool) : option string :=
  match pricesFailed, eventsFailed with
  | false, false => None
  | true, false => Some "Partial data load: price."%string
  | false, true => Some "Partial data load: event."%string
  | true, true => Some "Partial data load: price, event."%string
  end.

(** A response with a 2xx status whose body parsed as JSON. *)
Definition loadedJson (r : fetched) : Prop :=
  exists status body v,
    r = Response status body (Some v) /\ (200 <= status <= 299)%Z.

(** Some point of the series is dated [k]. *)
Definition dated (series : list PricePoint) (k : option value) : bool :=
  existsb (fun p => sameValueZero (date p) k) series.

(** The order the sort establishes: larger [|price_change|] first. *)
Definition byMagnitudeDesc (a b : ImpactItem) : Prop :=
  Qabs (price_change b) <= Qabs (price_change a).

(** The events whose [|price_change|] is [k]. *)
Definition tiesWith (k : Q) (a : ImpactItem) : bool :=
  Qeq_bool (Qabs (price_change a)) k.

(** No two distinct events have the same [|price_change|]. *)
Definition noTies (items : list ImpactItem) : Prop :=
  forall a b, In a items -> In b items ->
              Qabs (price_change a) == Qabs (price_change b) -> a = b.

Definition sampleHost : DateHost :=
  {| newDate := fun _ => None; toLocaleDateString := fun _ _ => EmptyString |}.

Definition samplePayload : value :=
  Obj [("dates"%string, Arr [Str "2020-01-01"; Str "2020-01-02"; Str "2020-01-03"]);
       ("prices"%string, Arr [Num 60; Num 61])].

Definition sampleVolatility : value :=
  Obj [("volatility_series"%string,
        Obj [("dates"%string, Arr [Str "2020-01-01"; Str "2020-01-02"]);
             ("volatility"%string, Arr [Num (1 # 10)])])].

Definition impactOf (name day : string) (change : Q) : ImpactItem :=
  {| title := name; idate := day; idateLabel := EmptyString;
     price_change := change; magnitude := change; type := "conflict";
     size := 4 |}.

Definition gulfWar : ImpactItem := impactOf "Gulf War" "1990-08-02" 5.
Definition asianCrisis : ImpactItem := impactOf "Asian crisis" "1997-07-02" (-5).
Definition oilGlut : ImpactItem := impactOf "Oil glut" "2014-11-27" (-7).

End App.

(** ** The Dashboard page *)

Module Dashboard.

(** [null + b] is [b]: a [null] entry counts as zero in the sum. *)
Definition toNumber (x : option Q) : Q :=
  match x with Some q => q | None => 0 end.

(** [vol.reduce((a, b) => a + b, 0)] *)
Definition sum (vol : list (option Q)) : Q :=
  fold_left (fun a b => a + toNumber b) vol 0.

(** The value handed to [setAvgVolatility]; the argument is
    [returns.data.volatility], absent or an array of numbers and
    [null]s, and [None] as a result is [null]. *)
Definition avgVolatility (volatility : option (list (option Q))) : option Q :=
  let vol := match volatility with Some v => v | None => [] end in
  if negb (List.length vol =? 0)%nat
  then Some (sum vol / inject_Z (Z.of_nat (List.length vol)))
  else None.

End Dashboard.

(** ** services/api.js: the response interceptor *)

Module Api.

(** What the response interceptor reads of an axios error:
    [error.response.data.error], [error.response.data.message] and
    [error.message]; a part that is missing along the way is [None]. *)
Record AxiosError : Type := {
  response_data_error : option string;
  response_data_message : option string;
  message : option string
}.

(** [x || rest] on strings: a missing or empty string is falsy. *)
Definition orString (x : option string) (rest : string) : string :=
  match x with
  | Some s => if String.eqb s EmptyString then rest else s
  | None => rest
  end.

(** The [message] of the object the interceptor rejects with. *)
Definition rejectionMessage (e : AxiosError) : string :=
  orString (response_data_error e)
    (orString (response_data_message e)
      (orString (message e) "Request failed")).

End Api.

(** ** The Dashboard page: fetchDashboardData *)

Module DashboardPage.
Import Js.

(** The body an [api] call resolves to: [null], or an object with or
    without a [data] property of the endpoint's shape. *)
Inductive Body (A : Type) : Type :=
| NoBody
| WithData (data : option A).

Arguments NoBody {A}.
Arguments WithData {A} data.

(** An [api] call: resolved by the response interceptor with the body,
    or rejected by it. *)
Inductive called (A : Type) : Type :=
| Resolved (body : Body A)
| RejectedWith (e : Api.AxiosError).

Arguments Resolved {A} body.
Arguments RejectedWith {A} e.

Record ChangePointsData : Type := { change_points : option value }.
Record ReturnsData : Type := { volatility : option (list (option Q)) }.
Record CorrelationData : Type := { correlations_field : option value }.

(** The six calls of [fetchDashboardData], in its order. *)
Record Calls : Type := {
  getAnalysisSummary : called value;
  getPrices : called value;
  getEvents : called value;
  getChangePoints : called ChangePointsData;
  getReturns : called ReturnsData;
  getEventCorrelation : called CorrelationData
}.

Record State : Type := {
  loading : bool;
  error : option string;
  summaryData : option value;
  priceData : option value;
  events : option value;
  changePoints : option value;
  avgVolatility : option Q;
  correlations : value
}.

Definition setLoading (b : bool) (st : State) : State :=
  {| loading := b; error := error st; summaryData := summaryData st;
     priceData := priceData st; events := events st;
     changePoints := changePoints st; avgVolatility := avgVolatility st;
     correlations := correlations st |}.

Definition setError (e : option string) (st : State) : State :=
  {| loading := loading st; error := e; summaryData := summaryData st;
     priceData := priceData st; events := events st;
     changePoints := changePoints st; avgVolatility := avgVolatility st;
     correlations := correlations st |}.

Definition setSummaryData (d : option value) (st : State) : State :=
  {| loading := loading st; error := error st; summaryData := d;
     priceData := priceData st; events := events st;
     changePoints := changePoints st; avgVolatility := avgVolatility st;
     correlations := correlations st |}.

Definition setPriceData (d : option value) (st : State) : State :=
  {| loading := loading st; error := error st; summaryData := summaryData st;
     priceData := d; events := events st;
     changePoints := changePoints st; avgVolatility := avgVolatility st;
     correlations := correlations st |}.

Definition setEvents (d : option value) (st : State) : State :=
  {| loading := loading st; error := error st; summaryData := summaryData st;
     priceData := priceData st; events := d;
     changePoints := changePoints st; avgVolatility := avgVolatility st;
     correlations := correlations st |}.

Definition setChangePoints (d : option value) (st : State) : State :=
  {| loading := loading st; error := error st; summaryData := summaryData st;
     priceData := priceData st; events := events st;
     changePoints := d; avgVolatility := avgVolatility st;
     correlations := correlations st |}.

Definition setAvgVolatility (a : option Q) (st : State) : State :=
  {| loading := loading st; error := error st; summaryData := summaryData st;
     priceData := priceData st; events := events st;
     changePoints := changePoints st; avgVolatility := a;
     correlations := correlations st |}.

Definition setCorrelations (d : value) (st : State) : State :=
  {| loading := loading st; error := error st; summaryData := summaryData st;
     priceData := priceData st; events := events st;
     changePoints := changePoints st; avgVolatility := avgVolatility st;
     correlations := d |}.

(** A run of statements over the component state: the state reached,
    and the message of what was thrown, if anything was.  State set
    before a throw stays set. *)
Definition Action : Type := State -> State * option string.

Definition modify (f : State -> State) : Action := fun st => (f st, None).

Definition throw (msg : string) : Action := fun st => (st, Some msg).

Definition andThen (a b : Action) : Action :=
  fun st =>
    match a st with
    | (st', None) => b st'
    | (st', Some msg) => (st', Some msg)
    end.

Notation "a ;; b" := (andThen a b) (at level 61, right associativity).

(** [const r = await api.call()]: a rejection is thrown, with the
    interceptor's message. *)
Definition await (A : Type) (c : called A) (k : Body A -> Action) : Action :=
  match c with
  | Resolved body => k body
  | RejectedWith e => throw (Api.rejectionMessage e)
  end.

(** [r.data]: a [TypeError] on a [null] body.  [typeError] gives the
    host's message for the property read. *)
Definition dataOf (A : Type) (typeError : string -> string) (body : Body A)
           (k : option A -> Action) : Action :=
  match body with
  | NoBody => throw (typeError "data"%string)
  | WithData d => k d
  end.

(** [r.data.k]: a [TypeError] when [r.data] is [undefined]. *)
Definition propertyOf (A : Type) (typeError : string -> string) (k : string)
           (d : option A) (use : A -> Action) : Action :=
  match d with
  | None => throw (typeError k)
  | Some x => use x
  end.

(** The [try] block of [fetchDashboardData]. *)
Definition tryBlock (typeError : string -> string) (c : Calls) : Action :=
  modify (setLoading true) ;;
  modify (setError None) ;;
  await (getAnalysisSummary c) (fun summary =>
    dataOf typeError summary (fun d => modify (setSummaryData d))) ;;
  await (getPrices c) (fun prices =>
    dataOf typeError prices (fun d => modify (setPriceData d))) ;;
  await (getEvents c) (fun eventsData =>
    dataOf typeError eventsData (fun d => modify (setEvents d))) ;;
  await (getChangePoints c) (fun cpData =>
    dataOf typeError cpData (fun d =>
      propertyOf typeError "change_points" d (fun cp =>
        modify (setChangePoints (change_points cp))))) ;;
  await (getReturns c) (fun returns =>
    dataOf typeError returns (fun d =>
      propertyOf typeError "volatility" d (fun r =>
        modify (setAvgVolatility (Dashboard.avgVolatility (volatility r)))))) ;;
  await (getEventCorrelation c) (fun corr =>
    dataOf typeError corr (fun d =>
      propertyOf typeError "correlations" d (fun cd =>
        modify (setCorrelations (or_else (correlations_field cd) (Arr [])))))) ;;
  modify (setLoading false).

(** [fetchDashboardData]: the [try] block, and the [catch] arm with
    [err?.message || 'Failed to load data']. *)
Definition fetchDashboardData (typeError : string -> string) (c : Calls)
           (st : State) : State :=
  match tryBlock typeError c st with
  | (st', None) => st'
  | (st', Some msg) =>
      setLoading false
        (setError (Some (if String.eqb msg EmptyString
                         then "Failed to load data"%string else msg)) st')
  end.

(** The two early returns of the component, ahead of the page: the
    loading notice and the error screen with its retry button. *)
Inductive Screen : Type :=
| LoadingScreen
| ErrorScreen (msg : string).

(** [if (loading) return ...; if (error) return ...;]: the screen
    returned early, or [None] when neither guard returns and the
    component goes on to build the page from its state (which is not
    part of this model). *)
Definition earlyReturn (st : State) : option Screen :=
  if loading st then Some LoadingScreen
  else match error st with
       | Some msg =>
           if String.eqb msg EmptyString then None else Some (ErrorScreen msg)
       | None => None
       end.

(** *** Vocabulary of the statements *)

(** A call that resolved with a body carrying [data]. *)
Definition delivered (A : Type) (c : called A) : Prop :=
  exists d, c = Resolved (WithData (Some d)).

(** A call that resolved with a body, with or without [data]. *)
Definition answered (A : Type) (c : called A) : Prop :=
  exists d, c = Resolved (WithData d).

(** Every call resolved with a body, and the three bodies whose [data]
    is read further carry it. *)
Definition allLoaded (c : Calls) : Prop :=
  answered (getAnalysisSummary c) /\ answered (getPrices c)
  /\ answered (getEvents c) /\ delivered (getChangePoints c)
  /\ delivered (getReturns c) /\ delivered (getEventCorrelation c).

(** A string that is truthy. *)
Definition nonEmpty (s : string) : Prop := String.eqb s EmptyString = false.

End DashboardPage.

(** ** PriceChartWithEvents.js *)

Module PriceChart.
Import Js.

(** A [Date] in local time; [getMonth] counts from zero. *)
Inductive JsDate : Type :=
| ValidDate (year month day : Z)
| InvalidDate.

(** [NaN] on an invalid date. *)
Definition getFullYear (d : JsDate) : option Z :=
  match d with ValidDate y _ _ => Some y | InvalidDate => None end.

Definition getMonth (d : JsDate) : option Z :=
  match d with ValidDate _ m _ => Some m | InvalidDate => None end.

(** [a === b] on numbers: [NaN] equals nothing. *)
Definition strictEq (a b : option Z) : bool :=
  match a, b with
  | Some x, Some y => (x =? y)%Z
  | _, _ => false
  end.

(** date-fns: [parseISO], and [format], which throws on an invalid date. *)
Record DateFns : Type := {
  parseISO : string -> JsDate;
  formatValid : Z -> Z -> Z -> string -> string
}.

Definition format (fns : DateFns) (d : JsDate) (pattern : string) : option string :=
  match d with
  | ValidDate y m dd => Some (formatValid fns y m dd pattern)
  | InvalidDate => None
  end.

Record PriceData : Type := {
  dates : list string;
  prices : list value
}.

Record ChartPoint : Type := {
  date : JsDate;
  price : option value;
  formattedDate : string
}.

Record Event : Type := {
  edate : string;
  etitle : string;
  etype : string
}.

Record Marker : Type := {
  event : Event;
  chartDate : JsDate;
  chartPrice : option value;
  x : nat;
  y : option value
}.

(** [priceData.dates.map((date, index) => ...)], from position [index]
    on; [None] when [format] throws. *)
Fixpoint chartDataFrom (fns : DateFns) (allPrices : list value) (index : nat)
         (ds : list string) : option (list ChartPoint) :=
  match ds with
  | [] => Some []
  | d :: rest =>
      match format fns (parseISO fns d) "MMM yyyy" with
      | None => None
      | Some label =>
          match chartDataFrom fns allPrices (S index) rest with
          | None => None
          | Some points =>
              Some ({| date := parseISO fns d;
                       price := nth_error allPrices index;
                       formattedDate := label |} :: points)
          end
      end
  end.

Definition chartData (fns : DateFns) (priceData : PriceData) : option (list ChartPoint) :=
  chartDataFrom fns (prices priceData) 0 (dates priceData).

(** The predicate handed to [chartData.find]. *)
Definition sameMonth (eventDate : JsDate) (d : ChartPoint) : bool :=
  strictEq (getFullYear (date d)) (getFullYear eventDate)
  && strictEq (getMonth (date d)) (getMonth eventDate).

(** [chart.find(p)] together with [chart.indexOf] of what it returned:
    the points are distinct objects, so [indexOf] gives back the position
    at which [find] stopped. *)
Fixpoint findFrom (A : Type) (p : A -> bool) (i : nat) (l : list A)
  : option (nat * A) :=
  match l with
  | [] => None
  | a :: rest => if p a then Some (i, a) else findFrom p (S i) rest
  end.

(** The price point an event is aligned with, if any. *)
Definition nearestPriceDate (fns : DateFns) (ev : Event) (chart : list ChartPoint)
  : option (nat * ChartPoint) :=
  findFrom (sameMonth (parseISO fns (edate ev))) 0 chart.

Definition marker (fns : DateFns) (chart : list ChartPoint) (ev : Event)
  : option Marker :=
  match nearestPriceDate fns ev chart with
  | Some (i, pricePoint) =>
      Some {| event := ev;
              chartDate := date pricePoint;
              chartPrice := price pricePoint;
              x := i;
              y := price pricePoint |}
  | None => None
  end.

Definition eventMarkers (fns : DateFns) (chart : list ChartPoint)
           (events : list Event) : list Marker :=
  filterBoolean (map (marker fns chart) events).

(** *** Vocabulary of the statements, and sample inputs *)

(** Two dates share their calendar year and month. *)
Definition sharesYearMonth (a b : JsDate) : Prop :=
  exists y m d1 d2, a = ValidDate y m d1 /\ b = ValidDate y m d2.

Definition sampleFns : DateFns :=
  {| parseISO := fun s =>
       if String.eqb s "2020-01-15" then ValidDate 2020 0 15
       else if String.eqb s "2020-01-31" then ValidDate 2020 0 31
       else if String.eqb s "2020-03-02" then ValidDate 2020 2 2
       else InvalidDate;
     formatValid := fun _ _ _ _ => EmptyString |}.

Definition samplePriceData : PriceData :=
  {| dates := ["2020-01-31"%string; "2020-03-02"%string];
     prices := [Num 60; Num 50] |}.

Definition sampleEvent : Event :=
  {| edate := "2020-01-15"; etitle := "OPEC meeting"; etype := "policy" |}.

Definition sampleChart : list ChartPoint :=
  [ {| date := ValidDate 2020 0 31; price := Some (Num 60); formattedDate := EmptyString |};
    {| date := ValidDate 2020 2 2; price := Some (Num 50); formattedDate := EmptyString |} ].

End PriceChart.

(** ** The impact pipeline behind the API

    The Flask backend (dashboard/backend/app.py) that computes what the
    dashboard displays is not among the reviewed sources; its operations
    are modelled here from the specification.  Dates are day numbers
    (days since 1970-01-01) and prices are rationals. *)

Module Core.

(** Modelled from the spec: a calendar date (missing: the date index of
    the backend's price table), as a day number. *)
Definition Date : Type := Z.

(** Modelled from the spec: the error kinds of section 7 (missing:
    app.py). *)
Inductive Error : Type :=
| DataFormatError
| ComputationError
| NotFoundError.

(** Modelled from the spec: PricePoint and TimeSeries of the data model
    (missing: the price table of app.py). *)
Record PricePoint : Type := {
  date : Date;
  price : Q
}.

(** Modelled from the spec: the ordered sequence of price points
    (missing: app.py). *)
Definition TimeSeries : Type := list PricePoint.

(** Modelled from the spec: the invariant of a series built by
    [TimeSeriesStore.load] (missing: the loader in app.py): dates
    strictly increasing, prices positive. *)
Definition loaded (ts : TimeSeries) : Prop :=
  StronglySorted (fun a b => (date a < date b)%Z) ts
  /\ Forall (fun p => 0 < price p) ts.

(** *** TimeSeriesStore *)

(** Modelled from the spec: the data's bounds used by
    [TimeSeriesStore.slice] (missing: app.py), the least and the greatest
    date of the series. *)
Definition min_date (ts : TimeSeries) : option Date :=
  match ts with
  | [] => None
  | p :: rest => Some (fold_left (fun m q => Z.min m (date q)) rest (date p))
  end.

(** Modelled from the spec: the upper bound of the data (missing:
    app.py). *)
Definition max_date (ts : TimeSeries) : option Date :=
  match ts with
  | [] => None
  | p :: rest => Some (fold_left (fun m q => Z.max m (date q)) rest (date p))
  end.

(** Modelled from the spec: clamping an endpoint to the nearest valid
    bound (missing: app.py). *)
Definition clamp (lo hi d : Date) : Date := Z.max lo (Z.min hi d).

(** Modelled from the spec: [TimeSeriesStore.slice(start, end)]
    (missing: the prices endpoint of app.py): the points with date in
    the clamped range; never fails. *)
Definition slice (start stop : Date) (ts : TimeSeries) : TimeSeries :=
  match min_date ts, max_date ts with
  | Some lo, Some hi =>
      filter (fun p => (clamp lo hi start <=? date p)%Z
                       && (date p <=? clamp lo hi stop)%Z) ts
  | _, _ => []
  end.

(** Modelled from the spec: the granularities of [resample] (missing:
    app.py). *)
Inductive Granularity : Type :=
| Daily
| Weekly
| Monthly
| Quarterly
| Yearly.

(** Modelled from the spec: the calendar behind the resampling periods
    (missing: the pandas calendar used by app.py).  The proleptic
    Gregorian year and month (1..12) of a day number. *)
Definition civil (d : Date) : Z * Z :=
  let z := (d + 719468)%Z in
  let era := (z / 146097)%Z in
  let doe := (z - era * 146097)%Z in
  let yoe := ((doe - doe / 1460 + doe / 36524 - doe / 146096) / 365)%Z in
  let doy := (doe - (365 * yoe + yoe / 4 - yoe / 100))%Z in
  let mp := ((5 * doy + 2) / 153)%Z in
  let m := (if mp <? 10 then mp + 3 else mp - 9)%Z in
  let y := (yoe + era * 400 + (if m <=? 2 then 1 else 0))%Z in
  (y, m).

(** Modelled from the spec: the period a date falls in, per granularity
    (missing: app.py).  Weeks end on Sunday; day 0 is a Thursday. *)
Definition period (g : Granularity) (d : Date) : Z :=
  match g with
  | Daily => d
  | Weekly => ((d + 3) / 7)%Z
  | Monthly => let (y, m) := civil d in (12 * y + (m - 1))%Z
  | Quarterly => let (y, m) := civil d in (4 * y + (m - 1) / 3)%Z
  | Yearly => fst (civil d)
  end.

(** Modelled from the spec: two observations fall in one period
    (missing: app.py). *)
Definition samePeriod (g : Granularity) (p q : PricePoint) : bool :=
  (period g (date q) =? period g (date p))%Z.

(** Modelled from the spec: [TimeSeriesStore.resample(series,
    granularity)] (missing: app.py): keeps, of every period, its last
    observation, that is, the points no later point shares a period
    with. *)
Fixpoint resample (g : Granularity) (ts : TimeSeries) : TimeSeries :=
  match ts with
  | [] => []
  | p :: rest =>
      if existsb (samePeriod g p) rest then resample g rest
      else p :: resample g rest
  end.

(** Modelled from the spec: a series that is already sampled daily
    (missing: app.py) has at most one observation per day. *)
Definition sampledDaily (ts : TimeSeries) : Prop := NoDup (map date ts).

(** *** ReturnsEngine *)

(** Modelled from the spec: ReturnPoint of the data model (missing:
    app.py), without the rolling volatility, a standard deviation. *)
Record ReturnPoint : Type := {
  rdate : Date;
  simple_return : Q;
  log_return : R
}.

(** Modelled from the spec: one point of [computeReturns] (missing:
    the returns endpoint of app.py), with the numeric policy: a previous
    price that is zero or negative is a [ComputationError] for that
    point. *)
Definition returnAt (prev cur : PricePoint) : Error + ReturnPoint :=
  if Qle_bool (price prev) 0 then inl ComputationError
  else inr {| rdate := date cur;
              simple_return := (price cur - price prev) / price prev;
              log_return := ln (Q2R (price cur) / Q2R (price prev)) |}.

(** Modelled from the spec: [ReturnsEngine.computeReturns(series)]
    (missing: app.py): one result per point from the second on. *)
Fixpoint computeReturns (series : TimeSeries) : list (Error + ReturnPoint) :=
  match series with
  | prev :: (cur :: _) as rest => returnAt prev cur :: computeReturns rest
  | _ => []
  end.

(** *** ImpactAnalyzer *)

(** Modelled from the spec: Event of the data model (missing: the event
    catalog of app.py). *)
Record Event : Type := {
  edate : Date;
  title : string;
  type : string
}.








(** *** CorrelationAnalyzer *)




(** *** Vocabulary of the statements, and sample inputs *)


(** The series 100, 102, 104, 98, 96 on five consecutive days. *)
Definition literalSeries : TimeSeries :=
  [ {| date := 0%Z; price := 100 |}; {| date := 1%Z; price := 102 |};
    {| date := 2%Z; price := 104 |}; {| date := 3%Z; price := 98 |};
    {| date := 4%Z; price := 96 |} ].






End Core.

(* ================================================================== *)
(** * Part II: properties                                              *)
(* ================================================================== *)

(** ** fetchAllData: which failures reach the error banner *)

Section FetchAllData.
Import Js App.

Lemma rejected_fulfilled (s : settled) : rejected s = negb (fulfilled s).
Proof. reflexivity. Qed.

Lemma fieldOrEmpty_rejected (s : settled) (k : string) :
  rejected s = true -> fieldOrEmpty s k = Arr [].
Proof. destruct s; simpl; [discriminate | reflexivity]. Qed.

Lemma valueOrNull_rejected (s : settled) :
  rejected s = true -> valueOrNull s = Null.
Proof. destruct s; simpl; [discriminate | reflexivity]. Qed.

Lemma error_fetchAllData (now : string) (r : Results) (st : State) :
  error (fetchAllData now r st)
  = banner (rejected (pricesResult r)) (rejected (eventsResult r)).
Proof.
  unfold fetchAllData, reportCritical, criticalErrors, errors.
  destruct r as [p e s c v k]; simpl.
  destruct p, e, s, c, v, k; reflexivity.
Qed.

(** C8: a failure of the summary, change-point, volatility or
    correlation request never sets the page-level error: after
    [fetchAllData] the error is a function of the prices and events
    requests alone, and it is set exactly when one of these two was
    rejected; every rejected non-critical section falls back to its
    empty default ([null] or the empty array), and loading is over. *)
Theorem fetchAllData_banner_only_for_critical :
  forall (now : string) (r : Results) (st : State),
    let st' := fetchAllData now r st in
    error st' = banner (rejected (pricesResult r)) (rejected (eventsResult r))
    /\ (error st' = None
        <-> fulfilled (pricesResult r) = true /\ fulfilled (eventsResult r) = true)
    /\ (rejected (summaryResult r) = true -> analysis (data st') = Null)
    /\ (rejected (cpResult r) = true -> changePoints (data st') = Arr [])
    /\ (rejected (volResult r) = true -> volatility (data st') = Null)
    /\ (rejected (corrResult r) = true -> correlations (data st') = Arr [])
    /\ loading st' = false.
Proof.
  intros now r st st'. subst st'.
  split; [apply error_fetchAllData |].
  split.
  { rewrite error_fetchAllData, !rejected_fulfilled.
    destruct (fulfilled (pricesResult r)), (fulfilled (eventsResult r));
      simpl; split; intros H; try discriminate; try (destruct H; discriminate);
      auto. }
  unfold fetchAllData; simpl.
  repeat split; auto using fieldOrEmpty_rejected, valueOrNull_rejected.
Qed.

End FetchAllData.

(** ** avgVolatility never divides by zero *)

Section AvgVolatility.
Import Dashboard.

Lemma length_nonzero (A : Type) (l : list A) :
  l <> [] -> ~ inject_Z (Z.of_nat (List.length l)) == 0.
Proof.
  intros Hne Hz. destruct l as [| a l]; [congruence |].
  unfold Qeq in Hz; simpl in Hz. lia.
Qed.

(** C9: the average handed to [setAvgVolatility] is defined on every
    volatility array: an absent or empty array gives [null], and a
    non-empty one gives the sum of its entries over its length, a
    division by a non-zero number. *)
Theorem avgVolatility_total :
  forall volatility : option (list (option Q)),
    let vol := match volatility with Some v => v | None => [] end in
    (vol = [] -> avgVolatility volatility = None)
    /\ (vol <> [] ->
        ~ inject_Z (Z.of_nat (List.length vol)) == 0
        /\ avgVolatility volatility
           = Some (sum vol / inject_Z (Z.of_nat (List.length vol)))).
Proof.
  intros volatility vol. unfold avgVolatility. fold vol.
  split.
  - intros ->. reflexivity.
  - intros Hne. split; [apply length_nonzero; assumption |].
    destruct vol as [| a l]; [congruence | reflexivity].
Qed.

End AvgVolatility.

(** ** priceSeries stays within both arrays *)

Section PriceSeries.
Import Js App.

Lemma nth_error_map_seq (A : Type) (f : nat -> A) (n i : nat) :
  (i < n)%nat -> nth_error (map f (seq 0 n)) i = Some (f i).
Proof.
  intros Hi. rewrite nth_error_map, nth_error_seq.
  destruct (Nat.ltb_spec i n); [reflexivity | lia].
Qed.

Lemma nth_error_in_range (A : Type) (l : list A) (i : nat) :
  (i < List.length l)%nat -> exists a, nth_error l i = Some a.
Proof.
  intros Hi. destruct (nth_error l i) eqn:E; [eauto |].
  apply nth_error_None in E. lia.
Qed.

(** C10: for a prices payload whose [dates] and [prices] (when present)
    are arrays, [priceSeries] has [min(|dates|, |prices|)] entries, its
    i-th entry pairs [dates[i]] with [prices[i]], and no entry holds an
    [undefined] date or price read past the end of an array. *)
Theorem priceSeries_within_bounds :
  forall (host : DateHost) (payload : value) (ds ps : list value),
    or_else (get payload "dates") (Arr []) = Arr ds ->
    or_else (get payload "prices") (Arr []) = Arr ps ->
    List.length (priceSeries host payload) = Nat.min (List.length ds) (List.length ps)
    /\ (forall i, (i < Nat.min (List.length ds) (List.length ps))%nat ->
        exists d p,
          nth_error ds i = Some d /\ nth_error ps i = Some p
          /\ nth_error (priceSeries host payload) i
             = Some {| date := Some d;
                       dateLabel := formatDate host (Some d) axisLabel;
                       price := Some p |})
    /\ Forall (fun point => date point <> None /\ price point <> None)
              (priceSeries host payload).
Proof.
  intros host payload ds ps Hd Hp.
  unfold priceSeries. rewrite Hd, Hp. simpl.
  split; [now rewrite length_map, length_seq |].
  split.
  - intros i Hi.
    destruct (@nth_error_in_range _ ds i) as [d Ed]; [lia |].
    destruct (@nth_error_in_range _ ps i) as [p Ep]; [lia |].
    exists d, p. repeat split; try assumption.
    rewrite nth_error_map_seq by assumption. now rewrite Ed, Ep.
  - apply Forall_forall. intros point Hin.
    apply in_map_iff in Hin. destruct Hin as [i [<- Hi]].
    apply in_seq in Hi. simpl.
    destruct (@nth_error_in_range _ ds i) as [d Ed]; [lia |].
    destruct (@nth_error_in_range _ ps i) as [p Ep]; [lia |].
    rewrite Ed, Ep. split; discriminate.
Qed.

Lemma priceSeries_within_bounds_witness :
  List.length (priceSeries sampleHost samplePayload) = 2%nat
  /\ Forall (fun point => date point <> None /\ price point <> None)
            (priceSeries sampleHost samplePayload).
Proof.
  destruct (@priceSeries_within_bounds sampleHost samplePayload
              [Str "2020-01-01"; Str "2020-01-02"; Str "2020-01-03"]
              [Num 60; Num 61] eq_refl eq_refl) as [Hlen [_ Hall]].
  split; [exact Hlen | exact Hall].
Defined.

End PriceSeries.

(** ** Event markers: alignment at month granularity *)

Section EventMarkers.
Import Js PriceChart.

Lemma sameMonth_shares (eventDate : JsDate) (p : ChartPoint) :
  sameMonth eventDate p = true <-> sharesYearMonth (date p) eventDate.
Proof.
  unfold sameMonth, sharesYearMonth. split.
  - destruct (date p) as [y m d |], eventDate as [y' m' d' |]; simpl;
      try discriminate.
    intros H. apply andb_true_iff in H. destruct H as [Hy Hm].
    apply Z.eqb_eq in Hy, Hm. subst. now exists y', m', d, d'.
  - intros (y & m & d1 & d2 & -> & ->). simpl. now rewrite !Z.eqb_refl.
Qed.

Lemma findFrom_some (A : Type) (p : A -> bool) (l : list A) :
  forall (i j : nat) (a : A),
    findFrom p i l = Some (j, a) ->
    (i <= j)%nat /\ nth_error l (j - i) = Some a /\ p a = true
    /\ forall k b, (k < j - i)%nat -> nth_error l k = Some b -> p b = false.
Proof.
  induction l as [| x l IH]; intros i j a H; simpl in H; [discriminate |].
  destruct (p x) eqn:Px.
  - injection H as <- <-. rewrite Nat.sub_diag. simpl.
    repeat split; auto. intros k b Hk. lia.
  - apply IH in H. destruct H as (Hle & Hnth & Pa & Hbefore).
    replace (j - i)%nat with (S (j - S i)) by lia. simpl.
    repeat split; auto; [lia |].
    intros [| k] b Hk Hb; simpl in Hb.
    + injection Hb as <-. exact Px.
    + apply (Hbefore k); [lia | exact Hb].
Qed.

Lemma findFrom_none (A : Type) (p : A -> bool) (l : list A) :
  forall i, findFrom p i l = None <-> forall a, In a l -> p a = false.
Proof.
  induction l as [| x l IH]; intros i; simpl.
  - split; [intros _ a [] | reflexivity].
  - destruct (p x) eqn:Px.
    + split; [discriminate |]. intros H. rewrite (H x) in Px; [discriminate | auto].
    + rewrite IH. split.
      * intros H a [<- | Ha]; auto.
      * intros H a Ha. apply H. auto.
Qed.

Lemma filterBoolean_In (A : Type) (xs : list (option A)) (a : A) :
  In a (filterBoolean xs) <-> In (Some a) xs.
Proof.
  induction xs as [| [x |] xs IH]; simpl.
  - tauto.
  - rewrite IH. split; intros [H | H]; auto; left; congruence.
  - rewrite IH. split; [auto | intros [H | H]; [discriminate | auto]].
Qed.

Lemma chartDataFrom_dates (fns : DateFns) (allPrices : list value) (ds : list string) :
  forall (i : nat) (chart : list ChartPoint),
    chartDataFrom fns allPrices i ds = Some chart ->
    map date chart = map (parseISO fns) ds.
Proof.
  induction ds as [| d ds IH]; intros i chart H; simpl in H.
  - injection H as <-. reflexivity.
  - destruct (format fns (parseISO fns d) "MMM yyyy"); [| discriminate].
    destruct (chartDataFrom fns allPrices (S i) ds) as [points |] eqn:E;
      [| discriminate].
    injection H as <-. simpl. f_equal. eapply IH; eassumption.
Qed.

Lemma marker_event (fns : DateFns) (chart : list ChartPoint) (ev : Event) (m : Marker) :
  marker fns chart ev = Some m -> event m = ev.
Proof.
  unfold marker. destruct (nearestPriceDate fns ev chart) as [[i p] |];
    [| discriminate].
  intros H. injection H as <-. reflexivity.
Qed.

(** C2: the price point an event resolves to is a point of the series
    whose date shares the event's calendar year and month (the first
    such point); there is none exactly when no point of the series lies
    in that month; hence an event gets a marker if and only if some
    date of the price series shares its year and month. *)
Theorem nearestPriceDate_same_month :
  forall (fns : DateFns) (priceData : PriceData) (chart : list ChartPoint)
         (events : list Event) (ev : Event),
    chartData fns priceData = Some chart ->
    In ev events ->
    let eventDate := parseISO fns (edate ev) in
    (forall i p, nearestPriceDate fns ev chart = Some (i, p) ->
       nth_error chart i = Some p
       /\ sharesYearMonth (date p) eventDate
       /\ forall k q, (k < i)%nat -> nth_error chart k = Some q ->
                      ~ sharesYearMonth (date q) eventDate)
    /\ (nearestPriceDate fns ev chart = None
        <-> forall d, In d (dates priceData) ->
                      ~ sharesYearMonth (parseISO fns d) eventDate)
    /\ ((exists m, In m (eventMarkers fns chart events) /\ event m = ev)
        <-> exists d, In d (dates priceData)
                      /\ sharesYearMonth (parseISO fns d) eventDate).
Proof.
  intros fns priceData chart events ev Hchart Hev eventDate.
  assert (Hdates : map date chart = map (parseISO fns) (dates priceData))
    by (eapply chartDataFrom_dates; exact Hchart).
  assert (Hpoint : (exists p, In p chart /\ sameMonth eventDate p = true)
                   <-> exists d, In d (dates priceData)
                                 /\ sharesYearMonth (parseISO fns d) eventDate).
  { split.
    - intros (p & Hp & Hs). apply sameMonth_shares in Hs.
      assert (Hin : In (date p) (map (parseISO fns) (dates priceData)))
        by (rewrite <- Hdates; now apply in_map).
      apply in_map_iff in Hin. destruct Hin as (d & Hd & Hin).
      exists d. split; [exact Hin | now rewrite Hd].
    - intros (d & Hd & Hs).
      assert (Hin : In (parseISO fns d) (map date chart))
        by (rewrite Hdates; now apply in_map).
      apply in_map_iff in Hin. destruct Hin as (p & Hp & Hin).
      exists p. split; [exact Hin |]. apply sameMonth_shares. now rewrite Hp. }
  assert (Hnone : nearestPriceDate fns ev chart = None
                  <-> ~ exists p, In p chart /\ sameMonth eventDate p = true).
  { unfold nearestPriceDate. fold eventDate. rewrite findFrom_none. split.
    - intros H (p & Hp & Hs). rewrite (H p Hp) in Hs. discriminate.
    - intros H p Hp. destruct (sameMonth eventDate p) eqn:E; [| reflexivity].
      exfalso. apply H. now exists p. }
  split; [| split].
  - intros i p H. unfold nearestPriceDate in H. fold eventDate in H.
    apply findFrom_some in H. destruct H as (_ & Hnth & Hp & Hbefore).
    rewrite Nat.sub_0_r in Hnth, Hbefore.
    split; [exact Hnth |]. split; [now apply sameMonth_shares |].
    intros k q Hk Hq Hs. apply sameMonth_shares in Hs.
    rewrite (Hbefore k q Hk Hq) in Hs. discriminate.
  - rewrite Hnone, Hpoint. split.
    + intros H d Hd Hs. apply H. now exists d.
    + intros H (d & Hd & Hs). exact (H d Hd Hs).
  - rewrite <- Hpoint. split.
    + intros (m & Hm & Hevent).
      apply filterBoolean_In, in_map_iff in Hm. destruct Hm as (ev' & Hmk & _).
      pose proof (marker_event _ _ _ Hmk) as Hev'. rewrite Hevent in Hev'. subst ev'.
      destruct (nearestPriceDate fns ev chart) as [[i p] |] eqn:E.
      * unfold nearestPriceDate in E. fold eventDate in E.
        apply findFrom_some in E. destruct E as (_ & Hnth & Hp & _).
        exists p. split; [eapply nth_error_In; exact Hnth | exact Hp].
      * unfold marker in Hmk. rewrite E in Hmk. discriminate.
    + intros Hex.
      destruct (nearestPriceDate fns ev chart) as [[i p] |] eqn:E.
      * eexists. split.
        -- apply filterBoolean_In, in_map_iff. exists ev. split; [| exact Hev].
           unfold marker. rewrite E. reflexivity.
        -- reflexivity.
      * exfalso. exact (proj1 Hnone eq_refl Hex).
Qed.

Lemma nearestPriceDate_same_month_witness :
  (exists m, In m (eventMarkers sampleFns sampleChart [sampleEvent])
             /\ event m = sampleEvent)
  <-> exists d, In d (dates samplePriceData)
                /\ sharesYearMonth (parseISO sampleFns d)
                                   (parseISO sampleFns (edate sampleEvent)).
Proof.
  exact (proj2 (proj2 (@nearestPriceDate_same_month sampleFns samplePriceData
                         sampleChart [sampleEvent] sampleEvent eq_refl
                         (or_introl eq_refl)))).
Defined.

End EventMarkers.

(** ** The stable sort *)

Section StableSort.
Import Stable.

Variable A : Type.
Variable comparefn : A -> A -> Q.

Lemma insert_perm (x : A) (l : list A) :
  Permutation (insert comparefn x l) (x :: l).
Proof.
  induction l as [| y l IH]; simpl; [apply Permutation_refl |].
  destruct (Qle_bool (comparefn x y) 0); [apply Permutation_refl |].
  apply Permutation_trans with (y :: x :: l);
    [now apply perm_skip | apply perm_swap].
Qed.

Lemma sort_perm (l : list A) : Permutation (sort comparefn l) l.
Proof.
  induction l as [| x l IH]; simpl; [constructor |].
  apply Permutation_trans with (x :: sort comparefn l);
    [apply insert_perm | now apply perm_skip].
Qed.

(** Elements of a class whose members all compare equal keep their
    input order: inserting passes over no member of the class of [x]. *)
Lemma filter_insert (c : A -> bool) (x : A) (l : list A) :
  (forall y, In y l -> c x = true -> c y = true -> comparefn x y <= 0) ->
  filter c (insert comparefn x l) = filter c (x :: l).
Proof.
  induction l as [| y l IH]; intros Hties; simpl; [reflexivity |].
  destruct (Qle_bool (comparefn x y) 0) eqn:E; [reflexivity |].
  simpl. rewrite IH by (intros z Hz; apply Hties; now right). simpl.
  destruct (c x) eqn:Cx; [| reflexivity].
  destruct (c y) eqn:Cy; [| reflexivity].
  exfalso. assert (H : comparefn x y <= 0) by (apply Hties; simpl; auto).
  apply Qle_bool_iff in H. congruence.
Qed.

Lemma filter_sort (c : A -> bool) (l : list A) :
  (forall x y, c x = true -> c y = true -> comparefn x y <= 0) ->
  filter c (sort comparefn l) = filter c l.
Proof.
  intros Hties. induction l as [| x l IH]; simpl; [reflexivity |].
  rewrite filter_insert by (intros; now apply Hties).
  simpl. now rewrite IH.
Qed.

Hypothesis comparefn_total :
  forall x y, ~ comparefn x y <= 0 -> comparefn y x <= 0.
Hypothesis comparefn_trans :
  forall x y z, comparefn x y <= 0 -> comparefn y z <= 0 -> comparefn x z <= 0.

Let precedes (x y : A) : Prop := comparefn x y <= 0.

Lemma insert_sorted (x : A) (l : list A) :
  StronglySorted precedes l -> StronglySorted precedes (insert comparefn x l).
Proof.
  induction l as [| y l IH]; intros Hs; simpl.
  - constructor; constructor.
  - inversion Hs as [| y' l' Hl Hy]; subst.
    destruct (Qle_bool (comparefn x y) 0) eqn:E.
    + apply Qle_bool_iff in E. constructor; [exact Hs |].
      constructor; [exact E |].
      eapply Forall_impl; [| exact Hy].
      intros z Hz. unfold precedes in *. eapply comparefn_trans; eassumption.
    + assert (Hyx : precedes y x).
      { apply comparefn_total. intros H. apply Qle_bool_iff in H. congruence. }
      constructor; [now apply IH |].
      apply Forall_forall. intros z Hz.
      apply (Permutation_in _ (insert_perm x l)) in Hz.
      destruct Hz as [<- | Hz]; [exact Hyx |].
      rewrite Forall_forall in Hy. now apply Hy.
Qed.

Lemma sort_sorted (l : list A) : StronglySorted precedes (sort comparefn l).
Proof.
  induction l as [| x l IH]; simpl; [constructor | now apply insert_sorted].
Qed.

End StableSort.

(** Two sorted arrangements of the same elements coincide when no two
    distinct elements tie. *)
Lemma sorted_perm_unique (A : Type) (R : A -> A -> Prop) :
  forall l1 l2 : list A,
    StronglySorted R l1 -> StronglySorted R l2 -> Permutation l1 l2 ->
    (forall a b, In a l1 -> In b l1 -> R a b -> R b a -> a = b) ->
    l1 = l2.
Proof.
  induction l1 as [| a l1 IH]; intros l2 S1 S2 P Hanti.
  - apply Permutation_nil in P. now subst.
  - destruct l2 as [| b l2];
      [apply Permutation_sym, Permutation_nil in P; discriminate |].
    inversion S1 as [| a' l1' S1' F1]; subst.
    inversion S2 as [| b' l2' S2' F2]; subst.
    rewrite Forall_forall in F1, F2.
    assert (Hab : a = b).
    { assert (Ha : In a (b :: l2)) by (eapply Permutation_in; [exact P | now left]).
      assert (Hb : In b (a :: l1))
        by (eapply Permutation_in; [apply Permutation_sym; exact P | now left]).
      destruct Ha as [Ha | Ha]; [now symmetry |].
      destruct Hb as [Hb | Hb]; [assumption |].
      apply Hanti; [now left | now right | now apply F1 | now apply F2]. }
    subst b. f_equal.
    apply IH; try assumption.
    + eapply Permutation_cons_inv; exact P.
    + intros x y Hx Hy. apply Hanti; now right.
Qed.

(** ** Top impact events *)

Section TopImpactEvents.
Import App.

Lemma byImpact_precedes (a b : ImpactItem) :
  byImpact a b <= 0 <-> byMagnitudeDesc a b.
Proof. unfold byImpact, byMagnitudeDesc. split; intros H; lra. Qed.

Lemma sortedImpacts_perm (items : list ImpactItem) :
  Permutation (sortedImpacts items) items.
Proof. apply sort_perm. Qed.

Lemma sortedImpacts_sorted (items : list ImpactItem) :
  StronglySorted byMagnitudeDesc (sortedImpacts items).
Proof.
  assert (H : StronglySorted (fun a b => byImpact a b <= 0) (sortedImpacts items)).
  { apply sort_sorted; unfold byImpact; intros; lra. }
  induction H as [| a l Hl IH Ha]; constructor; [exact IH |].
  eapply Forall_impl; [| exact Ha]. intros b. apply byImpact_precedes.
Qed.

Lemma sortedImpacts_stable (k : Q) (items : list ImpactItem) :
  filter (tiesWith k) (sortedImpacts items) = filter (tiesWith k) items.
Proof.
  apply filter_sort. unfold tiesWith, byImpact. intros x y Hx Hy.
  apply Qeq_bool_iff in Hx, Hy. lra.
Qed.

Lemma sortedImpacts_unique (items items' : list ImpactItem) :
  Permutation items items' -> noTies items ->
  sortedImpacts items' = sortedImpacts items.
Proof.
  intros P Hno.
  apply sorted_perm_unique with (R := byMagnitudeDesc);
    try apply sortedImpacts_sorted.
  - eapply Permutation_trans; [apply sortedImpacts_perm |].
    eapply Permutation_trans; [apply Permutation_sym; exact P |].
    apply Permutation_sym, sortedImpacts_perm.
  - intros a b Ha Hb Hab Hba.
    assert (Ha' : In a items).
    { eapply Permutation_in; [apply Permutation_sym; exact P |].
      eapply Permutation_in; [apply sortedImpacts_perm | exact Ha]. }
    assert (Hb' : In b items).
    { eapply Permutation_in; [apply Permutation_sym; exact P |].
      eapply Permutation_in; [apply sortedImpacts_perm | exact Hb]. }
    apply Hno; try assumption. unfold byMagnitudeDesc in *. lra.
Qed.

(** X17: the list of top impact events is the first six entries of the
    impact series sorted descending by [|price_change|]; the sorted
    sequence is a rearrangement of the input in which events of equal
    [|price_change|] keep their input order, and for an input in which
    no two distinct events tie, every reordering of it gives the same
    sequence and the same list. *)
Theorem topImpactEvents_sorted_stable :
  forall items : list ImpactItem,
    topImpactEvents items = firstn 6 (sortedImpacts items)
    /\ Permutation (sortedImpacts items) items
    /\ StronglySorted byMagnitudeDesc (sortedImpacts items)
    /\ (forall k, filter (tiesWith k) (sortedImpacts items)
                  = filter (tiesWith k) items)
    /\ (forall items', Permutation items items' -> noTies items ->
          sortedImpacts items' = sortedImpacts items
          /\ topImpactEvents items' = topImpactEvents items).
Proof.
  intros items.
  split; [reflexivity |].
  split; [apply sortedImpacts_perm |].
  split; [apply sortedImpacts_sorted |].
  split; [intros k; apply sortedImpacts_stable |].
  intros items' P Hno. unfold topImpactEvents.
  rewrite (sortedImpacts_unique P Hno). split; reflexivity.
Qed.

Lemma noTies_gulfWar_oilGlut : noTies [gulfWar; oilGlut].
Proof.
  intros a b [<- | [<- | []]] [<- | [<- | []]] H; try reflexivity;
    unfold Qeq in H; simpl in H; discriminate.
Qed.

Lemma topImpactEvents_sorted_stable_witness :
  sortedImpacts [oilGlut; gulfWar] = sortedImpacts [gulfWar; oilGlut]
  /\ topImpactEvents [oilGlut; gulfWar] = topImpactEvents [gulfWar; oilGlut].
Proof.
  exact (proj2 (proj2 (proj2 (proj2
           (topImpactEvents_sorted_stable [gulfWar; oilGlut]))))
           [oilGlut; gulfWar] (perm_swap oilGlut gulfWar [])
           noTies_gulfWar_oilGlut).
Defined.

(** The comparator of the list never looks at the date: two events
    that tie in [|price_change|] stay in input order, so the later-dated
    one comes first in one ordering and the two orderings of the same
    events give different lists; and of seven events only six are
    listed. *)
Lemma topImpactEvents_ties_follow_input :
  Qabs (price_change asianCrisis) == Qabs (price_change gulfWar)
  /\ String.ltb (idate gulfWar) (idate asianCrisis) = true
  /\ topImpactEvents [asianCrisis; gulfWar] = [asianCrisis; gulfWar]
  /\ topImpactEvents [gulfWar; asianCrisis] = [gulfWar; asianCrisis]
  /\ Permutation [asianCrisis; gulfWar] [gulfWar; asianCrisis]
  /\ topImpactEvents [asianCrisis; gulfWar] <> topImpactEvents [gulfWar; asianCrisis]
  /\ List.length (topImpactEvents (repeat gulfWar 7)) = 6%nat.
Proof.
  split; [reflexivity |].
  split; [reflexivity |].
  split; [reflexivity |].
  split; [reflexivity |].
  split; [apply perm_swap |].
  split; [| reflexivity].
  vm_compute. discriminate.
Qed.

End TopImpactEvents.

(** ** ImpactAnalyzer.analyze *)

Section Analyze.
Import Core.










End Analyze.

(** ** CorrelationAnalyzer.rank: one failing analysis does not abort *)

Section Rank.
Import Core.






End Rank.

(** ** CorrelationAnalyzer.rank: the order of the table *)

Section RankOrder.
Import Core.
















End RankOrder.

(** ** TimeSeriesStore.slice *)

Section Slice.
Import Core.

Lemma fold_min_le (rest : TimeSeries) :
  forall m, (fold_left (fun m q => Z.min m (date q)) rest m <= m)%Z
            /\ forall p, In p rest ->
                 (fold_left (fun m q => Z.min m (date q)) rest m <= date p)%Z.
Proof.
  induction rest as [| q rest IH]; intros m; simpl.
  - split; [lia | intros p []].
  - destruct (IH (Z.min m (date q))) as [Hm Hall]. split; [lia |].
    intros p [<- | Hp]; [lia | now apply Hall].
Qed.

Lemma fold_max_ge (rest : TimeSeries) :
  forall m, (m <= fold_left (fun m q => Z.max m (date q)) rest m)%Z
            /\ forall p, In p rest ->
                 (date p <= fold_left (fun m q => Z.max m (date q)) rest m)%Z.
Proof.
  induction rest as [| q rest IH]; intros m; simpl.
  - split; [lia | intros p []].
  - destruct (IH (Z.max m (date q))) as [Hm Hall]. split; [lia |].
    intros p [<- | Hp]; [lia | now apply Hall].
Qed.

Lemma min_date_le (ts : TimeSeries) (lo : Date) :
  min_date ts = Some lo -> forall p, In p ts -> (lo <= date p)%Z.
Proof.
  destruct ts as [| q rest]; [discriminate |]. simpl. intros H. injection H as <-.
  destruct (fold_min_le rest (date q)) as [Hm Hall].
  intros p [<- | Hp]; [exact Hm | now apply Hall].
Qed.

Lemma max_date_ge (ts : TimeSeries) (hi : Date) :
  max_date ts = Some hi -> forall p, In p ts -> (date p <= hi)%Z.
Proof.
  destruct ts as [| q rest]; [discriminate |]. simpl. intros H. injection H as <-.
  destruct (fold_max_ge rest (date q)) as [Hm Hall].
  intros p [<- | Hp]; [exact Hm | now apply Hall].
Qed.

Lemma bounds_ordered (ts : TimeSeries) (lo hi : Date) :
  min_date ts = Some lo -> max_date ts = Some hi -> (lo <= hi)%Z.
Proof.
  intros Hlo Hhi. destruct ts as [| q rest]; [discriminate |].
  pose proof (min_date_le _ Hlo q (or_introl eq_refl)).
  pose proof (max_date_ge _ Hhi q (or_introl eq_refl)). lia.
Qed.

Lemma filter_all (A : Type) (f : A -> bool) (l : list A) :
  (forall a, In a l -> f a = true) -> filter f l = l.
Proof.
  induction l as [| a l IH]; intros H; simpl; [reflexivity |].
  rewrite (H a) by now left. f_equal. apply IH. intros b Hb. apply H. now right.
Qed.

Lemma filter_sorted (A : Type) (R : A -> A -> Prop) (f : A -> bool) (l : list A) :
  StronglySorted R l -> StronglySorted R (filter f l).
Proof.
  induction 1 as [| a l Hl IH Ha]; simpl; [constructor |].
  destruct (f a); [| exact IH]. constructor; [exact IH |].
  rewrite Forall_forall in *. intros b Hb. apply filter_In in Hb. now apply Ha.
Qed.

(** C5: for a loaded series with bounds [lo] and [hi], [slice(start,
    end)] returns exactly the points dated within [clamp(start),
    clamp(end)], where each clamped endpoint lies within the bounds; the
    returned dates are strictly increasing; and slicing from [lo] to
    [hi] gives back the whole series. *)
Theorem slice_clamps_and_round_trips :
  forall (ts : TimeSeries) (start stop lo hi : Date),
    loaded ts ->
    min_date ts = Some lo ->
    max_date ts = Some hi ->
    (forall p, In p (slice start stop ts)
               <-> In p ts
                   /\ (clamp lo hi start <= date p <= clamp lo hi stop)%Z)
    /\ (lo <= clamp lo hi start <= hi)%Z
    /\ (lo <= clamp lo hi stop <= hi)%Z
    /\ StronglySorted (fun a b => (date a < date b)%Z) (slice start stop ts)
    /\ slice lo hi ts = ts.
Proof.
  intros ts start stop lo hi [Hsorted _] Hlo Hhi.
  pose proof (bounds_ordered _ Hlo Hhi) as Hle.
  unfold slice. rewrite Hlo, Hhi.
  split; [| split; [| split; [| split]]].
  - intros p. rewrite filter_In. split; intros [Hp Hr]; (split; [exact Hp | lia]).
  - unfold clamp. lia.
  - unfold clamp. lia.
  - now apply filter_sorted.
  - apply filter_all. intros p Hp.
    pose proof (min_date_le _ Hlo p Hp). pose proof (max_date_ge _ Hhi p Hp).
    unfold clamp. lia.
Qed.

Lemma literalSeries_loaded : loaded literalSeries.
Proof.
  split.
  - unfold literalSeries.
    repeat (constructor; [| repeat (constructor; [simpl; lia |]); constructor]).
    constructor.
  - unfold literalSeries. repeat (constructor; [reflexivity |]). constructor.
Defined.

Lemma slice_clamps_and_round_trips_witness :
  (forall p, In p (slice (-7)%Z 2%Z literalSeries)
             <-> In p literalSeries
                 /\ (clamp 0%Z 4%Z (-7)%Z <= date p <= clamp 0%Z 4%Z 2%Z)%Z)
  /\ slice 0%Z 4%Z literalSeries = literalSeries.
Proof.
  destruct (@slice_clamps_and_round_trips literalSeries (-7)%Z 2%Z 0%Z 4%Z
              literalSeries_loaded eq_refl eq_refl) as (Hin & _ & _ & _ & _).
  destruct (@slice_clamps_and_round_trips literalSeries 0%Z 4%Z 0%Z 4%Z
              literalSeries_loaded eq_refl eq_refl) as (_ & _ & _ & _ & Hall).
  split; [exact Hin | exact Hall].
Defined.

End Slice.

(** ** TimeSeriesStore.resample *)

Section Resample.
Import Core.

Lemma resample_In (g : Granularity) (ts : TimeSeries) (p : PricePoint) :
  In p (resample g ts)
  <-> exists earlier later,
        ts = earlier ++ p :: later
        /\ forall q, In q later -> period g (date q) <> period g (date p).
Proof.
  induction ts as [| a ts IH]; simpl.
  - split; [intros [] | intros (earlier & later & H & _); destruct earlier; discriminate].
  - destruct (existsb (samePeriod g a) ts) eqn:E.
    + rewrite IH. split.
      * intros (earlier & later & -> & Hlast). now exists (a :: earlier), later.
      * intros (earlier & later & Hts & Hlast).
        destruct earlier as [| b earlier]; simpl in Hts; injection Hts as -> ->.
        -- exfalso. apply existsb_exists in E. destruct E as (q & Hq & Hs).
           unfold samePeriod in Hs. apply Z.eqb_eq in Hs. exact (Hlast q Hq Hs).
        -- now exists earlier, later.
    + simpl. rewrite IH. split.
      * intros [<- | (earlier & later & -> & Hlast)].
        -- exists [], ts. split; [reflexivity |]. intros q Hq Hs.
           assert (Hex : existsb (samePeriod g a) ts = true).
           { apply existsb_exists. exists q. split; [exact Hq |].
             unfold samePeriod. now apply Z.eqb_eq. }
           congruence.
        -- now exists (a :: earlier), later.
      * intros (earlier & later & Hts & Hlast).
        destruct earlier as [| b earlier]; simpl in Hts; injection Hts as -> ->;
          [now left | right; now exists earlier, later].
Qed.

Lemma resample_subset (g : Granularity) (ts : TimeSeries) (p : PricePoint) :
  In p (resample g ts) -> In p ts.
Proof.
  intros H. apply resample_In in H. destruct H as (earlier & later & -> & _).
  apply in_or_app. right. now left.
Qed.

Lemma resample_periods_distinct (g : Granularity) (ts : TimeSeries) :
  NoDup (map (fun p => period g (date p)) (resample g ts)).
Proof.
  induction ts as [| a ts IH]; simpl; [constructor |].
  destruct (existsb (samePeriod g a) ts) eqn:E; [exact IH |].
  simpl. constructor; [| exact IH].
  intros Hin. apply in_map_iff in Hin. destruct Hin as (q & Hq & Hin).
  apply resample_subset in Hin.
  assert (Hex : existsb (samePeriod g a) ts = true).
  { apply existsb_exists. exists q. split; [exact Hin |].
    unfold samePeriod. now apply Z.eqb_eq. }
  congruence.
Qed.

Lemma resample_covers (g : Granularity) (ts : TimeSeries) :
  forall q, In q ts ->
    exists p, In p (resample g ts) /\ period g (date p) = period g (date q).
Proof.
  induction ts as [| a ts IH]; intros q Hq; [destruct Hq |]. simpl.
  destruct (existsb (samePeriod g a) ts) eqn:E.
  - destruct Hq as [<- | Hq]; [| now apply IH].
    apply existsb_exists in E. destruct E as (b & Hb & Hs).
    unfold samePeriod in Hs. apply Z.eqb_eq in Hs.
    destruct (IH b Hb) as (p & Hp & Hper). exists p. split; [exact Hp | congruence].
  - destruct Hq as [<- | Hq].
    + exists a. split; [now left | reflexivity].
    + destruct (IH q Hq) as (p & Hp & Hper). exists p.
      split; [now right | exact Hper].
Qed.

Lemma resample_daily (ts : TimeSeries) :
  sampledDaily ts -> resample Daily ts = ts.
Proof.
  unfold sampledDaily. induction ts as [| a ts IH]; intros Hnd; [reflexivity |].
  simpl in *. inversion Hnd as [| d ds Hnotin Hrest]; subst.
  destruct (existsb (samePeriod Daily a) ts) eqn:E.
  - exfalso. apply existsb_exists in E. destruct E as (q & Hq & Hs).
    unfold samePeriod in Hs. simpl in Hs. apply Z.eqb_eq in Hs.
    apply Hnotin. rewrite <- Hs. now apply in_map.
  - f_equal. now apply IH.
Qed.

(** C6: on a series that is already daily (no day observed twice)
    [resample] with the daily granularity returns its input; and for
    every granularity, the coarser ones included, the resampled series
    consists of the last observation of each period: a point is kept
    exactly when no later point of the series falls in its period, no
    period is kept twice, and every period of the input is kept. *)
Theorem resample_daily_identity_last_observation :
  (forall ts : TimeSeries, sampledDaily ts -> resample Daily ts = ts)
  /\ (forall (g : Granularity) (ts : TimeSeries),
        (forall p, In p (resample g ts)
                   <-> exists earlier later,
                         ts = earlier ++ p :: later
                         /\ forall q, In q later ->
                                      period g (date q) <> period g (date p))
        /\ NoDup (map (fun p => period g (date p)) (resample g ts))
        /\ (forall q, In q ts ->
              exists p, In p (resample g ts)
                        /\ period g (date p) = period g (date q))).
Proof.
  split; [exact resample_daily |].
  intros g ts. split; [| split].
  - intros p. apply resample_In.
  - apply resample_periods_distinct.
  - apply resample_covers.
Qed.

(** Five trading days, Thursday 1970-01-01 to Monday 1970-01-05: the
    weekly series keeps Sunday's and Monday's observations, and the
    monthly series the last one. *)
Example resample_literal :
  resample Daily literalSeries = literalSeries
  /\ map date (resample Weekly literalSeries) = [3%Z; 4%Z]
  /\ map date (resample Monthly literalSeries) = [4%Z].
Proof. repeat split; reflexivity. Qed.

End Resample.

(** ** ReturnsEngine.computeReturns *)

Section ComputeReturns.
Import Core.

Lemma Q2R_pos (a : Q) : 0 < a -> (0 < Q2R a)%R.
Proof.
  intros H. apply Qlt_Rlt in H.
  replace (Q2R 0) with 0%R in H by (unfold Q2R; simpl; lra). exact H.
Qed.

(** The sign of the simple return is the sign of the price move. *)
Lemma simple_return_sign (a b : Q) :
  0 < a ->
  (0 < (b - a) / a <-> a < b)
  /\ ((b - a) / a == 0 <-> a == b)
  /\ ((b - a) / a < 0 <-> b < a).
Proof.
  intros Ha. unfold Qdiv.
  assert (Hk : 0 < / a) by now apply Qinv_lt_0_compat.
  set (k := / a) in *.
  repeat split; intros H; nra.
Qed.

(** The sign of the log return is the sign of the price move. *)
Lemma log_return_sign (x y : R) :
  (0 < x)%R -> (0 < y)%R ->
  ((0 < ln (y / x))%R <-> (x < y)%R)
  /\ (ln (y / x) = 0%R <-> x = y)
  /\ ((ln (y / x) < 0)%R <-> (y < x)%R).
Proof.
  intros Hx Hy.
  assert (Hq : (0 < y / x)%R) by now apply Rdiv_lt_0_compat.
  assert (Hmul : (y / x * x = y)%R) by (field; lra).
  set (q := (y / x)%R) in *.
  assert (Hgt : (0 < ln q)%R <-> (1 < q)%R).
  { rewrite <- ln_1. split; intros H.
    - apply ln_lt_inv; [lra | assumption | exact H].
    - apply ln_increasing; [lra | exact H]. }
  assert (Heq : ln q = 0%R <-> q = 1%R).
  { rewrite <- ln_1. split; intros H.
    - apply ln_inv; [assumption | lra | exact H].
    - now rewrite H. }
  assert (Hlt : (ln q < 0)%R <-> (q < 1)%R).
  { rewrite <- ln_1. split; intros H.
    - apply ln_lt_inv; [assumption | lra | exact H].
    - apply ln_increasing; [assumption | exact H]. }
  rewrite Hgt, Heq, Hlt.
  repeat split; intros H; nra.
Qed.

Lemma returnAt_positive (prev cur : PricePoint) :
  0 < price prev ->
  returnAt prev cur
  = inr {| rdate := date cur;
           simple_return := (price cur - price prev) / price prev;
           log_return := ln (Q2R (price cur) / Q2R (price prev)) |}.
Proof.
  intros H. unfold returnAt.
  destruct (Qle_bool (price prev) 0) eqn:E; [| reflexivity].
  apply Qle_bool_iff in E. lra.
Qed.

Lemma computeReturns_length (series : TimeSeries) :
  List.length (computeReturns series) = (List.length series - 1)%nat.
Proof.
  induction series as [| prev [| cur rest] IH]; [reflexivity | reflexivity |].
  change (computeReturns (prev :: cur :: rest))
    with (returnAt prev cur :: computeReturns (cur :: rest)).
  simpl List.length in *. lia.
Qed.

Lemma computeReturns_nth (series : TimeSeries) :
  forall (t : nat) (prev cur : PricePoint),
    nth_error series t = Some prev ->
    nth_error series (S t) = Some cur ->
    nth_error (computeReturns series) t = Some (returnAt prev cur).
Proof.
  induction series as [| a [| b rest] IH]; intros t prev cur Hp Hc.
  - destruct t; discriminate.
  - destruct t as [| [| t]]; discriminate.
  - change (computeReturns (a :: b :: rest))
      with (returnAt a b :: computeReturns (b :: rest)).
    destruct t as [| t].
    + simpl in Hp, Hc. injection Hp as ->. injection Hc as ->. reflexivity.
    + simpl in Hp. simpl. apply IH; assumption.
Qed.

(** C4: on a series of [n] positive prices [computeReturns] produces
    [n - 1] results, none of them an error: the result at position [t]
    is the return point of the consecutive prices [t] and [t + 1] (the
    first price has no point of its own), with the simple return
    [(price[t+1] - price[t]) / price[t]] and the log return
    [ln (price[t+1] / price[t])], and the two are positive together,
    zero together and negative together. *)
Theorem computeReturns_count_and_sign :
  forall series : TimeSeries,
    Forall (fun p => 0 < price p) series ->
    List.length (computeReturns series) = (List.length series - 1)%nat
    /\ forall (t : nat) (prev cur : PricePoint),
         nth_error series t = Some prev ->
         nth_error series (S t) = Some cur ->
         exists r,
           nth_error (computeReturns series) t = Some (inr r)
           /\ rdate r = date cur
           /\ simple_return r == (price cur - price prev) / price prev
           /\ log_return r = ln (Q2R (price cur) / Q2R (price prev))
           /\ (0 < simple_return r <-> (0 < log_return r)%R)
           /\ (simple_return r == 0 <-> log_return r = 0%R)
           /\ (simple_return r < 0 <-> (log_return r < 0)%R).
Proof.
  intros series Hpos. split; [apply computeReturns_length |].
  intros t prev cur Hp Hc. rewrite Forall_forall in Hpos.
  assert (Ha : 0 < price prev) by (apply Hpos; eapply nth_error_In; exact Hp).
  assert (Hb : 0 < price cur) by (apply Hpos; eapply nth_error_In; exact Hc).
  eexists. split.
  { rewrite (computeReturns_nth _ _ Hp Hc). rewrite returnAt_positive by exact Ha.
    reflexivity. }
  simpl.
  destruct (simple_return_sign (price cur) Ha) as (Sgt & Seq & Slt).
  destruct (log_return_sign (Q2R_pos Ha) (Q2R_pos Hb)) as (Lgt & Leq & Llt).
  split; [reflexivity |]. split; [reflexivity |]. split; [reflexivity |].
  rewrite Sgt, Seq, Slt, Lgt, Leq, Llt.
  repeat split; intros H;
    first [ now apply Qlt_Rlt | now apply Rlt_Qlt
          | now apply Qeq_eqR | now apply eqR_Qeq ].
Qed.

Lemma computeReturns_count_and_sign_witness :
  List.length (computeReturns literalSeries) = 4%nat.
Proof.
  exact (proj1 (@computeReturns_count_and_sign literalSeries
                  (proj2 literalSeries_loaded))).
Defined.

End ComputeReturns.

(* ================================================================== *)
(** * Part III: further properties of the dashboard code               *)
(* ================================================================== *)

(** ** Strings *)

Section Strings.

Lemma substring_0_length (n : nat) (s : string) :
  String.length (substring 0 n s) = Nat.min n (String.length s).
Proof.
  revert s. induction n as [| n IH]; intros s; destruct s as [| c s]; simpl;
    try reflexivity.
  now rewrite IH.
Qed.

Lemma substring_0_prefix (n : nat) (s : string) :
  exists rest, s = append (substring 0 n s) rest.
Proof.
  revert s. induction n as [| n IH]; intros s; destruct s as [| c s]; simpl.
  - now exists EmptyString.
  - now exists (String c s).
  - now exists EmptyString.
  - destruct (IH s) as [rest Hrest]. exists rest. now rewrite <- Hrest.
Qed.

Lemma append_length (a b : string) :
  String.length (append a b) = (String.length a + String.length b)%nat.
Proof. induction a as [| c a IH]; simpl; [reflexivity | now rewrite IH]. Qed.

End Strings.

(** ** fetchJson *)

Section FetchJson.
Import Js App.

Lemma ok_range (status : Z) : ok status = true <-> (200 <= status <= 299)%Z.
Proof. unfold ok. rewrite andb_true_iff, !Z.leb_le. tauto. Qed.

(** X1: [fetchJson] fulfils with the parsed body exactly on a 2xx
    response whose body parses, and with [null] exactly on a 404 when
    [allowNotFound] is set; any other response is rejected, and the
    rejection of a failed request carries the status, which is not a
    2xx one, with an excerpt of the body: its first 200 characters at
    most. *)
Theorem fetchJson_outcomes :
  forall (r : fetched) (allowNotFound : bool),
    (forall v, fetchJson r allowNotFound = Fulfilled v
               <-> (exists status body,
                      r = Response status body (Some v)
                      /\ (200 <= status <= 299)%Z)
                   \/ (allowNotFound = true /\ v = Null
                       /\ exists body json, r = Response 404 body json))
    /\ (forall status excerpt,
          fetchJson r allowNotFound = Rejected (RequestFailed status excerpt) ->
          ~ (200 <= status <= 299)%Z
          /\ (allowNotFound = true -> status <> 404%Z)
          /\ (String.length excerpt <= 200)%nat
          /\ exists body json rest,
               r = Response status body json /\ body = append excerpt rest).
Proof.
  intros r allowNotFound. split.
  - intros v. destruct r as [| status body json]; simpl.
    + split; [discriminate |].
      intros [(s & b & H & _) | (_ & _ & b & j & H)]; discriminate.
    + destruct (ok status) eqn:Hok; simpl.
      * apply ok_range in Hok. destruct json as [w |]; split.
        -- intros H. injection H as ->. left. now exists status, body.
        -- intros [(s & b & H & _) | (_ & _ & b & j & H)];
             inversion H; subst; [reflexivity | lia].
        -- discriminate.
        -- intros [(s & b & H & _) | (_ & _ & b & j & H)];
             inversion H; subst; lia.
      * assert (Hnot : ~ (200 <= status <= 299)%Z)
          by (intros H; apply ok_range in H; congruence).
        destruct allowNotFound; simpl.
        -- destruct (Z.eqb_spec status 404) as [-> | Hne]; split.
           ++ intros H. injection H as <-. right. repeat split. now exists body, json.
           ++ intros [(s & b & H & Hr) | (_ & -> & _)]; [| reflexivity].
              inversion H; subst. lia.
           ++ discriminate.
           ++ intros [(s & b & H & Hr) | (_ & _ & b & j & H)];
                inversion H; subst; contradiction.
        -- split; [discriminate |].
           intros [(s & b & H & Hr) | (H & _)]; [| discriminate].
           inversion H; subst. contradiction.
  - intros status excerpt. destruct r as [| s body json]; simpl; [discriminate |].
    destruct (ok s) eqn:Hok; simpl.
    + destruct json; discriminate.
    + assert (Hnot : ~ (200 <= s <= 299)%Z)
        by (intros H; apply ok_range in H; congruence).
      destruct (allowNotFound && (s =? 404)%Z) eqn:Hnf; [discriminate |].
      intros H. injection H as <- <-.
      split; [exact Hnot |]. split.
      * intros -> ->. simpl in Hnf. discriminate.
      * split.
        -- rewrite substring_0_length. apply Nat.le_min_l.
        -- destruct (substring_0_prefix 200 body) as [rest Hrest].
           now exists body, json, rest.
Qed.

Lemma rejected_fetchJson_critical (r : fetched) :
  rejected (fetchJson r false) = false <-> loadedJson r.
Proof.
  unfold loadedJson. destruct r as [| status body json]; simpl.
  - split; [discriminate | intros (s & b & v & H & _); discriminate].
  - destruct (ok status) eqn:Hok; simpl.
    + apply ok_range in Hok. destruct json as [v |]; simpl.
      * split; [intros _; now exists status, body, v | reflexivity].
      * split; [discriminate | intros (s & b & v & H & _); discriminate].
    + split; [discriminate |].
      intros (s & b & v & H & Hr). injection H as -> _ _.
      apply ok_range in Hr. congruence.
Qed.

(** X2: from the responses on, [fetchAllData] leaves no error exactly
    when both the prices and the events response are 2xx with a JSON
    body, whatever the four analysis endpoints answer; a 404 from an
    analysis endpoint is not even a failure: it leaves [null] for the
    summary and the volatility and the empty array for the change
    points and the correlations. *)
Theorem fetchAllDataFrom_responses :
  forall (now : string) (f : Responses) (st : State),
    let st' := fetchAllDataFrom now f st in
    (error st' = None
     <-> loadedJson (pricesResponse f) /\ loadedJson (eventsResponse f))
    /\ (forall body json, summaryResponse f = Response 404 body json ->
          analysis (data st') = Null)
    /\ (forall body json, cpResponse f = Response 404 body json ->
          changePoints (data st') = Arr [])
    /\ (forall body json, volResponse f = Response 404 body json ->
          volatility (data st') = Null)
    /\ (forall body json, corrResponse f = Response 404 body json ->
          correlations (data st') = Arr []).
Proof.
  intros now f st st'. subst st'. unfold fetchAllDataFrom.
  split.
  - rewrite error_fetchAllData. simpl.
    rewrite <- !rejected_fetchJson_critical.
    destruct (rejected (fetchJson (pricesResponse f) false)),
             (rejected (fetchJson (eventsResponse f) false)); simpl;
      split; intros H; try discriminate; try (destruct H; discriminate); auto.
  - unfold fetchAllData. simpl.
    repeat split; intros body json ->; reflexivity.
Qed.


End FetchJson.

(** ** priceMap and the event markers of App.js *)

Section PriceMap.
Import Js App.

Lemma sameValueZero_sym (a b : option value) :
  sameValueZero a b = sameValueZero b a.
Proof.
  destruct a as [[| x | x | x | x | x] |], b as [[| y | y | y | y | y] |];
    simpl; try reflexivity.
  - now destruct x, y.
  - destruct (Qeq_bool x y) eqn:E, (Qeq_bool y x) eqn:E'; try reflexivity.
    + apply Qeq_bool_iff in E. symmetry in E. apply Qeq_bool_iff in E. congruence.
    + apply Qeq_bool_iff in E'. symmetry in E'. apply Qeq_bool_iff in E'. congruence.
  - apply String.eqb_sym.
Qed.

Lemma sameValueZero_trans (a b c : option value) :
  sameValueZero a b = true -> sameValueZero b c = true ->
  sameValueZero a c = true.
Proof.
  destruct a as [[| x | x | x | x | x] |], b as [[| y | y | y | y | y] |],
           c as [[| z | z | z | z | z] |]; simpl; try discriminate; auto.
  - destruct x, y, z; simpl; auto.
  - intros H1 H2. apply Qeq_bool_iff in H1, H2. apply Qeq_bool_iff.
    now rewrite H1.
  - intros H1 H2. apply String.eqb_eq in H1, H2. subst. apply String.eqb_refl.
Qed.

(** Reading a key after a [set]: the new value under an equal key, the
    old map elsewhere. *)
Lemma mapGet_mapSet (k k' v : option value) (m : PriceMap) :
  mapGet k (mapSet k' v m)
  = if sameValueZero k' k then v else mapGet k m.
Proof.
  induction m as [| [k2 v2] m IH]; simpl; [reflexivity |].
  destruct (sameValueZero k2 k') eqn:E2; simpl.
  - destruct (sameValueZero k2 k) eqn:Ek.
    + rewrite (sameValueZero_sym k2 k') in E2.
      now rewrite (sameValueZero_trans _ _ _ E2 Ek).
    + destruct (sameValueZero k' k) eqn:E'; [| reflexivity].
      now rewrite (sameValueZero_trans _ _ _ E2 E') in Ek.
  - rewrite IH. destruct (sameValueZero k2 k) eqn:Ek; [| reflexivity].
    destruct (sameValueZero k' k) eqn:E'; [| reflexivity].
    rewrite (sameValueZero_sym k' k) in E'.
    now rewrite (sameValueZero_trans _ _ _ Ek E') in E2.
Qed.

Lemma mapGet_fold (k : option value) (series : list PricePoint) :
  forall m,
    mapGet k (fold_left (fun m point => mapSet (date point) (price point) m)
                        series m)
    = fold_left (fun found point =>
                   if sameValueZero (date point) k then price point else found)
                series (mapGet k m).
Proof.
  induction series as [| p series IH]; intros m; simpl; [reflexivity |].
  now rewrite IH, mapGet_mapSet.
Qed.

Lemma fold_last_none (k : option value) (series : list PricePoint) :
  forall found,
    (forall p, In p series -> sameValueZero (date p) k = false) ->
    fold_left (fun found point =>
                 if sameValueZero (date point) k then price point else found)
              series found = found.
Proof.
  induction series as [| p series IH]; intros found H; simpl; [reflexivity |].
  rewrite (H p) by now left. apply IH. intros q Hq. apply H. now right.
Qed.

Lemma mapGet_priceMap_absent (k : option value) (series : list PricePoint) :
  dated series k = false -> mapGet k (priceMap series) = None.
Proof.
  intros H. unfold priceMap. rewrite mapGet_fold. simpl.
  apply fold_last_none. intros p Hp.
  destruct (sameValueZero (date p) k) eqn:E; [| reflexivity].
  assert (dated series k = true); [| congruence].
  apply existsb_exists. now exists p.
Qed.

Lemma mapGet_priceMap_last (k : option value) (before after : list PricePoint)
      (p : PricePoint) :
  sameValueZero (date p) k = true ->
  (forall q, In q after -> sameValueZero (date q) k = false) ->
  mapGet k (priceMap (before ++ p :: after)) = price p.
Proof.
  intros Hp Hafter. unfold priceMap. rewrite mapGet_fold.
  rewrite fold_left_app. simpl. rewrite Hp. now apply fold_last_none.
Qed.

(** The last point of a series with a given date. *)
Lemma last_dated (k : option value) (series : list PricePoint) :
  dated series k = true ->
  exists before p after,
    series = before ++ p :: after
    /\ sameValueZero (date p) k = true
    /\ forall q, In q after -> sameValueZero (date q) k = false.
Proof.
  induction series as [| a series IH]; simpl; [discriminate |].
  destruct (dated series k) eqn:Hrest.
  - intros _. destruct (IH eq_refl) as (before & p & after & -> & Hp & Hafter).
    now exists (a :: before), p, after.
  - rewrite orb_false_r. intros Ha. exists [], a, series.
    repeat split; [exact Ha |].
    intros q Hq. destruct (sameValueZero (date q) k) eqn:E; [| reflexivity].
    assert (dated series k = true); [| congruence].
    apply existsb_exists. now exists q.
Qed.

(** X4: [priceMap] keeps one price per date, the last one: looking up
    a date that no point of the series has gives [undefined], and
    looking up a date some point has gives the price of the last point
    with that date, earlier prices for it being overwritten. *)
Theorem priceMap_last_price_wins :
  forall (series : list PricePoint) (k : option value),
    (dated series k = false -> mapGet k (priceMap series) = None)
    /\ (forall before p after,
          series = before ++ p :: after ->
          sameValueZero (date p) k = true ->
          (forall q, In q after -> sameValueZero (date q) k = false) ->
          mapGet k (priceMap series) = price p).
Proof.
  intros series k. split.
  - apply mapGet_priceMap_absent.
  - intros before p after -> Hp Hafter. now apply mapGet_priceMap_last.
Qed.

Lemma eventMarkers_cons (host : DateHost) (m : PriceMap) (ev : EventItem)
      (evs : list EventItem) :
  eventMarkers host m (ev :: evs)
  = match eventMarker host m ev with
    | Some mk => mk :: eventMarkers host m evs
    | None => eventMarkers host m evs
    end.
Proof. unfold eventMarkers. simpl. now destruct (eventMarker host m ev). Qed.

(** X5: on a series without [undefined] prices the event markers of
    App.js are, in the order of the events, exactly the events whose
    date is the date of some price point (equal as values, not merely
    in the same month), each carrying the event's date, title and type
    and the price of the last point with that date. *)
Theorem eventMarkers_exact_date :
  forall (host : DateHost) (series : list PricePoint) (eventItems : list EventItem),
    Forall (fun p => price p <> None) series ->
    map (fun mk => (m_date mk, m_title mk, m_type mk))
        (eventMarkers host (priceMap series) eventItems)
    = map (fun ev => (ev_date ev, ev_title ev, ev_type ev))
          (filter (fun ev => dated series (ev_date ev)) eventItems)
    /\ forall mk, In mk (eventMarkers host (priceMap series) eventItems) ->
         exists before p after,
           series = before ++ p :: after
           /\ sameValueZero (date p) (m_date mk) = true
           /\ (forall q, In q after -> sameValueZero (date q) (m_date mk) = false)
           /\ price p = Some (m_price mk).
Proof.
  intros host series evs Hdef.
  assert (Hone : forall ev,
            match eventMarker host (priceMap series) ev with
            | Some mk =>
                dated series (ev_date ev) = true
                /\ m_date mk = ev_date ev /\ m_title mk = ev_title ev
                /\ m_type mk = ev_type ev
                /\ mapGet (ev_date ev) (priceMap series) = Some (m_price mk)
            | None => dated series (ev_date ev) = false
            end).
  { intros ev. unfold eventMarker.
    destruct (dated series (ev_date ev)) eqn:Hd.
    - destruct (last_dated _ _ Hd) as (before & p & after & Hs & Hp & Hafter).
      assert (Hget : mapGet (ev_date ev) (priceMap series) = price p)
        by (rewrite Hs; now apply mapGet_priceMap_last).
      rewrite Hget. rewrite Forall_forall in Hdef.
      assert (Hin : In p series) by (rewrite Hs; apply in_or_app; right; now left).
      specialize (Hdef p Hin). destruct (price p) as [x |]; [| congruence].
      simpl. repeat split; reflexivity.
    - now rewrite (mapGet_priceMap_absent _ _ Hd). }
  split.
  - induction evs as [| ev evs IH]; [reflexivity |].
    rewrite eventMarkers_cons. simpl. specialize (Hone ev).
    destruct (eventMarker host (priceMap series) ev) as [mk |].
    + destruct Hone as (Hd & H1 & H2 & H3 & _). rewrite Hd. simpl.
      now rewrite H1, H2, H3, IH.
    + now rewrite Hone.
  - intros mk Hin. apply filterBoolean_In, in_map_iff in Hin.
    destruct Hin as (ev & Hmk & _). specialize (Hone ev). rewrite Hmk in Hone.
    destruct Hone as (Hd & H1 & _ & _ & Hget).
    destruct (last_dated _ _ Hd) as (before & p & after & Hs & Hp & Hafter).
    exists before, p, after. rewrite H1.
    repeat split; try assumption.
    rewrite <- Hget. rewrite Hs. symmetry. now apply mapGet_priceMap_last.
Qed.

Lemma eventMarkers_exact_date_witness :
  map (fun mk => (m_date mk, m_title mk, m_type mk))
      (eventMarkers sampleHost (priceMap (priceSeries sampleHost samplePayload))
         [ {| ev_date := Some (Str "2020-01-02"); ev_title := Some (Str "a");
              ev_type := None |};
           {| ev_date := Some (Str "2020-01-03"); ev_title := Some (Str "b");
              ev_type := None |} ])
  = [(Some (Str "2020-01-02"), Some (Str "a"), None)].
Proof.
  refine (proj1 (@eventMarkers_exact_date sampleHost
                   (priceSeries sampleHost samplePayload) _ _)).
  repeat constructor; discriminate.
Defined.

(** X6: when the prices request was rejected, the stored prices are the
    empty default, so the price series of the chart is empty and no
    event gets a marker. *)
Theorem rejected_prices_empty_chart :
  forall (host : DateHost) (r : Results) (eventItems : list EventItem),
    rejected (pricesResult r) = true ->
    prices (nextData r) = emptyPrices
    /\ priceSeries host (prices (nextData r)) = []
    /\ eventMarkers host (priceMap (priceSeries host (prices (nextData r))))
                    eventItems = [].
Proof.
  intros host r evs Hrej.
  assert (Hp : prices (nextData r) = emptyPrices).
  { unfold nextData. simpl. destruct (pricesResult r); [discriminate | reflexivity]. }
  rewrite Hp. split; [reflexivity |]. split; [reflexivity |].
  simpl. induction evs as [| ev evs IH]; [reflexivity |].
  rewrite eventMarkers_cons. unfold eventMarker. simpl. exact IH.
Qed.

Lemma rejected_prices_empty_chart_witness :
  priceSeries sampleHost
    (prices (nextData {| pricesResult := Rejected NetworkFailure;
                         eventsResult := Fulfilled Null;
                         summaryResult := Fulfilled Null;
                         cpResult := Fulfilled Null;
                         volResult := Fulfilled Null;
                         corrResult := Fulfilled Null |})) = [].
Proof.
  exact (proj1 (proj2 (@rejected_prices_empty_chart sampleHost
                         {| pricesResult := Rejected NetworkFailure;
                            eventsResult := Fulfilled Null;
                            summaryResult := Fulfilled Null;
                            cpResult := Fulfilled Null;
                            volResult := Fulfilled Null;
                            corrResult := Fulfilled Null |} [] eq_refl))).
Defined.

End PriceMap.

(** ** volatilitySeries, impactSeries and the bar chart *)

Section Series.
Import Js App.

(** X7: for a volatility payload whose [volatility_series] holds the
    arrays [dates] and [volatility], [volatilitySeries] has
    [min(|dates|, |volatility|)] points, the i-th pairing [dates[i]]
    with [volatility[i]], none with an [undefined] field; a payload
    without [volatility_series] ([null] included) gives the empty
    series. *)
Theorem volatilitySeries_within_bounds :
  forall (host : DateHost) (payload : value) (ds vs : list value),
    or_else (getOpt (get payload "volatility_series") "dates") (Arr []) = Arr ds ->
    or_else (getOpt (get payload "volatility_series") "volatility") (Arr []) = Arr vs ->
    List.length (volatilitySeries host payload)
    = Nat.min (List.length ds) (List.length vs)
    /\ (forall i, (i < Nat.min (List.length ds) (List.length vs))%nat ->
        exists d v,
          nth_error ds i = Some d /\ nth_error vs i = Some v
          /\ nth_error (volatilitySeries host payload) i
             = Some {| v_date := Some d;
                       v_dateLabel := formatDate host (Some d) axisLabel;
                       v_volatility := Some v |})
    /\ (get payload "volatility_series" = None ->
        volatilitySeries host payload = []).
Proof.
  intros host payload ds vs Hd Hv.
  split; [| split].
  - unfold volatilitySeries. rewrite Hd, Hv. simpl.
    now rewrite length_map, length_seq.
  - intros i Hi. unfold volatilitySeries. rewrite Hd, Hv. simpl.
    destruct (@nth_error_in_range _ ds i) as [d Ed]; [lia |].
    destruct (@nth_error_in_range _ vs i) as [v Ev]; [lia |].
    exists d, v. repeat split; try assumption.
    rewrite nth_error_map_seq by assumption. now rewrite Ed, Ev.
  - intros Hnone. unfold volatilitySeries. rewrite Hnone. reflexivity.
Qed.

Lemma volatilitySeries_within_bounds_witness :
  List.length (volatilitySeries sampleHost sampleVolatility) = 1%nat.
Proof.
  exact (proj1 (@volatilitySeries_within_bounds sampleHost sampleVolatility
                  [Str "2020-01-01"; Str "2020-01-02"] [Num (1 # 10)]
                  eq_refl eq_refl)).
Defined.

Lemma Qmax_Qmin_bounds (x : Q) :
  4 <= Qmax 4 (Qmin 40 x) /\ Qmax 4 (Qmin 40 x) <= 40.
Proof.
  unfold Qmax, Qmin.
  destruct (Qle_bool 40 x) eqn:E1.
  - destruct (Qle_bool 4 40) eqn:E2; split; lra.
  - assert (H1 : ~ 40 <= x) by (intros H; apply Qle_bool_iff in H; congruence).
    destruct (Qle_bool 4 x) eqn:E2.
    + apply Qle_bool_iff in E2. split; lra.
    + split; lra.
Qed.

Lemma Qmax_Qmin_inside (x : Q) :
  4 <= x -> x <= 40 -> Qmax 4 (Qmin 40 x) == x.
Proof.
  intros H4 H40. unfold Qmax, Qmin.
  destruct (Qle_bool 40 x) eqn:E1.
  - apply Qle_bool_iff in E1. simpl. lra.
  - destruct (Qle_bool 4 x) eqn:E2; [reflexivity |].
    apply Qle_bool_iff in H4. congruence.
Qed.

(** X8: [impactSeries] has one item per correlation row, in order; an
    item keeps the row's date and price change, takes the row's
    [event] as title unless that is empty (then its [title]), and its
    bubble size is [|magnitude|] clamped to the range 4..40: always
    within the range, and [|magnitude|] itself when that lies in it. *)
Theorem impactSeries_sizes :
  forall (host : DateHost) (rows : list CorrelationRow),
    List.length (impactSeries host rows) = List.length rows
    /\ Forall (fun item => 4 <= size item /\ size item <= 40)
              (impactSeries host rows)
    /\ forall i row, nth_error rows i = Some row ->
         exists item,
           nth_error (impactSeries host rows) i = Some item
           /\ idate item = row_date row
           /\ price_change item = row_price_change row
           /\ title item = (if String.eqb (row_event row) EmptyString
                            then row_title row else row_event row)
           /\ (4 <= Qabs (row_magnitude row) -> Qabs (row_magnitude row) <= 40 ->
               size item == Qabs (row_magnitude row)).
Proof.
  intros host rows. unfold impactSeries.
  split; [apply length_map |]. split.
  - apply Forall_forall. intros item Hin.
    apply in_map_iff in Hin. destruct Hin as (row & <- & _). simpl.
    apply Qmax_Qmin_bounds.
  - intros i row Hrow. eexists. split.
    + rewrite nth_error_map, Hrow. reflexivity.
    + simpl. repeat split.
      * now destruct (String.eqb (row_event row) EmptyString).
      * apply Qmax_Qmin_inside.
Qed.

Lemma sorted_app_cross (A : Type) (R : A -> A -> Prop) (l1 l2 : list A) :
  StronglySorted R (l1 ++ l2) ->
  forall a b, In a l1 -> In b l2 -> R a b.
Proof.
  induction l1 as [| x l1 IH]; intros Hs a b Ha Hb; [destruct Ha |].
  simpl in Hs. inversion Hs as [| x' l' Hl Hx]; subst.
  destruct Ha as [<- | Ha].
  - rewrite Forall_forall in Hx. apply Hx. apply in_or_app. now right.
  - now apply IH.
Qed.

(** X9: the list of top impact events shows [min(6, n)] of the [n]
    events, and every event it leaves out has a [|price_change|] no
    larger than that of every event it shows; shown and left out
    together are the events of the impact series. *)
Theorem topImpactEvents_dominate :
  forall items : list ImpactItem,
    List.length (topImpactEvents items) = Nat.min 6 (List.length items)
    /\ Permutation (topImpactEvents items ++ skipn 6 (sortedImpacts items)) items
    /\ forall shown omitted,
         In shown (topImpactEvents items) ->
         In omitted (skipn 6 (sortedImpacts items)) ->
         Qabs (price_change omitted) <= Qabs (price_change shown).
Proof.
  intros items. unfold topImpactEvents.
  split; [| split].
  - rewrite length_firstn.
    now rewrite (Permutation_length (sortedImpacts_perm items)).
  - rewrite firstn_skipn. apply sortedImpacts_perm.
  - intros shown omitted Hs Ho.
    pose proof (sortedImpacts_sorted items) as Hsorted.
    rewrite <- (firstn_skipn 6 (sortedImpacts items)) in Hsorted.
    exact (@sorted_app_cross _ byMagnitudeDesc _ _ Hsorted shown omitted Hs Ho).
Qed.

Lemma barName_length (event : string) :
  (String.length (barName event) <= 19)%nat.
Proof.
  unfold barName. destruct (Nat.ltb_spec 16 (String.length event)).
  - rewrite append_length, substring_0_length.
    change (String.length "...") with 3%nat. lia.
  - lia.
Qed.

(** X10: the event volatility chart draws at most six bars, one for
    each of the first six entries; a bar's name is the event name when
    that has at most 16 characters, and otherwise its first 16
    characters followed by the three dots ["..."], so no name is longer
    than 19 characters; a missing volatility change is drawn as 0. *)
Theorem eventVolatilityBars_names :
  forall event_volatility : option (list EventVolatility),
    let entries := match event_volatility with Some l => l | None => [] end in
    List.length (eventVolatilityBars event_volatility)
    = Nat.min 6 (List.length entries)
    /\ Forall (fun bar => (String.length (name bar) <= 19)%nat)
              (eventVolatilityBars event_volatility)
    /\ forall i entry, (i < 6)%nat -> nth_error entries i = Some entry ->
         exists bar,
           nth_error (eventVolatilityBars event_volatility) i = Some bar
           /\ volatilityChange bar
              = match evol_change entry with Some q => q | None => 0 end
           /\ ((String.length (evol_event entry) <= 16)%nat ->
               name bar = evol_event entry)
           /\ ((16 < String.length (evol_event entry))%nat ->
               name bar = append (substring 0 16 (evol_event entry)) "..."
               /\ String.length (name bar) = 19%nat
               /\ exists rest,
                    evol_event entry
                    = append (substring 0 16 (name bar)) rest).
Proof.
  intros ev entries. unfold eventVolatilityBars. fold entries.
  split; [| split].
  - now rewrite length_map, length_firstn.
  - apply Forall_forall. intros bar Hin.
    apply in_map_iff in Hin. destruct Hin as (entry & <- & _). simpl.
    apply barName_length.
  - intros i entry Hi Hentry. eexists. split.
    + rewrite nth_error_map, nth_error_firstn.
      destruct (Nat.ltb_spec i 6); [| lia]. rewrite Hentry. reflexivity.
    + simpl. split; [reflexivity |]. unfold barName. split.
      * intros Hle. destruct (Nat.ltb_spec 16 (String.length (evol_event entry)));
          [lia | reflexivity].
      * intros Hlt. destruct (Nat.ltb_spec 16 (String.length (evol_event entry)));
          [| lia].
        split; [reflexivity |]. split.
        -- rewrite append_length, substring_0_length.
           change (String.length "...") with 3%nat. lia.
        -- destruct (substring_0_prefix 16 (evol_event entry)) as [rest Hrest].
           exists rest.
           assert (Hsame : substring 0 16
                             (append (substring 0 16 (evol_event entry)) "...")
                           = substring 0 16 (evol_event entry)).
           { generalize (substring_0_length 16 (evol_event entry)).
             rewrite Nat.min_l by lia.
             generalize (substring 0 16 (evol_event entry)).
             intros s Hs.
             do 16 (destruct s as [| ? s]; [discriminate |]; simpl; f_equal).
             destruct s; [reflexivity | discriminate]. }
           rewrite Hsame. exact Hrest.
Qed.

End Series.

(** ** PriceChartWithEvents.js: the chart data and the markers *)

Section ChartData.
Import Js PriceChart.

Lemma chartDataFrom_none (fns : DateFns) (allPrices : list value) (ds : list string) :
  forall i, chartDataFrom fns allPrices i ds = None
            <-> exists d, In d ds /\ parseISO fns d = InvalidDate.
Proof.
  induction ds as [| d ds IH]; intros i; simpl.
  - split; [discriminate | intros (d & [] & _)].
  - destruct (parseISO fns d) as [y m dd |] eqn:Ed; simpl.
    + destruct (chartDataFrom fns allPrices (S i) ds) as [points |] eqn:E.
      * split; [discriminate |]. intros (d' & [<- | Hin] & Hinv); [congruence |].
        assert (Hnone : chartDataFrom fns allPrices (S i) ds = None)
          by (apply IH; now exists d').
        congruence.
      * split; [| reflexivity]. intros _.
        apply IH in E. destruct E as (d' & Hin & Hinv). exists d'. auto.
    + split; [| reflexivity]. intros _. exists d. auto.
Qed.

Lemma chartDataFrom_points (fns : DateFns) (allPrices : list value) (ds : list string) :
  forall (i : nat) (chart : list ChartPoint),
    chartDataFrom fns allPrices i ds = Some chart ->
    List.length chart = List.length ds
    /\ forall k d, nth_error ds k = Some d ->
         exists label,
           nth_error chart k
           = Some {| date := parseISO fns d;
                     price := nth_error allPrices (i + k);
                     formattedDate := label |}.
Proof.
  induction ds as [| d ds IH]; intros i chart H; simpl in H.
  - injection H as <-. split; [reflexivity |]. intros [| k] d'; discriminate.
  - destruct (format fns (parseISO fns d) "MMM yyyy") as [label |]; [| discriminate].
    destruct (chartDataFrom fns allPrices (S i) ds) as [points |] eqn:E;
      [| discriminate].
    injection H as <-. destruct (IH _ _ E) as [Hlen Hnth].
    split; [simpl; now rewrite Hlen |].
    intros [| k] d' Hd; simpl in Hd.
    + injection Hd as <-. exists label. simpl. now rewrite Nat.add_0_r.
    + destruct (Hnth k d' Hd) as [label' Hk]. exists label'. simpl.
      rewrite Hk. now replace (i + S k)%nat with (S i + k)%nat by lia.
Qed.

(** X11: building the chart data fails (date-fns [format] throws)
    exactly when some date of the price data does not parse; otherwise
    there is one chart point per date, in order, carrying the parsed
    date and [prices[index]], which is [undefined] from the end of a
    shorter [prices] array on: the chart is not cut to the shorter of
    the two arrays. *)
Theorem chartData_points :
  forall (fns : DateFns) (priceData : PriceData),
    (chartData fns priceData = None
     <-> exists d, In d (dates priceData) /\ parseISO fns d = InvalidDate)
    /\ forall chart, chartData fns priceData = Some chart ->
         List.length chart = List.length (dates priceData)
         /\ (forall k d, nth_error (dates priceData) k = Some d ->
               exists label,
                 nth_error chart k
                 = Some {| date := parseISO fns d;
                           price := nth_error (prices priceData) k;
                           formattedDate := label |})
         /\ (forall k p, nth_error chart k = Some p ->
               (List.length (prices priceData) <= k)%nat -> price p = None).
Proof.
  intros fns priceData. unfold chartData. split; [apply chartDataFrom_none |].
  intros chart H. destruct (chartDataFrom_points _ _ _ _ H) as [Hlen Hnth].
  split; [exact Hlen |]. split; [exact Hnth |].
  intros k p Hp Hk.
  assert (Hd : exists d, nth_error (dates priceData) k = Some d).
  { apply nth_error_in_range. rewrite <- Hlen.
    apply nth_error_Some. congruence. }
  destruct Hd as [d Hd]. destruct (Hnth k d Hd) as [label Hk'].
  rewrite Hk' in Hp. injection Hp as <-. simpl.
  now apply nth_error_None.
Qed.

Lemma sameMonth_ext (a b : JsDate) (p : ChartPoint) :
  sharesYearMonth a b -> sameMonth a p = sameMonth b p.
Proof. intros (y & m & d1 & d2 & -> & ->). reflexivity. Qed.

Lemma findFrom_ext (A : Type) (f g : A -> bool) (l : list A) :
  (forall a, f a = g a) -> forall i, findFrom f i l = findFrom g i l.
Proof.
  intros H. induction l as [| a l IH]; intros i; simpl; [reflexivity |].
  rewrite H. destruct (g a); [reflexivity | apply IH].
Qed.

(** X12: two events whose dates share the calendar year and month are
    aligned with the same price point whatever their days: their
    markers have the same position, chart date and price, so events of
    one month are drawn on top of each other. *)
Theorem same_month_events_coincide :
  forall (fns : DateFns) (chart : list ChartPoint) (ev1 ev2 : Event),
    sharesYearMonth (parseISO fns (edate ev1)) (parseISO fns (edate ev2)) ->
    nearestPriceDate fns ev1 chart = nearestPriceDate fns ev2 chart
    /\ (marker fns chart ev1 = None <-> marker fns chart ev2 = None)
    /\ forall m1 m2,
         marker fns chart ev1 = Some m1 -> marker fns chart ev2 = Some m2 ->
         x m1 = x m2 /\ chartDate m1 = chartDate m2
         /\ chartPrice m1 = chartPrice m2 /\ y m1 = y m2.
Proof.
  intros fns chart ev1 ev2 Hshare.
  assert (Hsame : nearestPriceDate fns ev1 chart = nearestPriceDate fns ev2 chart).
  { unfold nearestPriceDate. apply findFrom_ext. intros p.
    now apply sameMonth_ext. }
  split; [exact Hsame |]. unfold marker. rewrite Hsame.
  destruct (nearestPriceDate fns ev2 chart) as [[i p] |].
  - split; [split; discriminate |].
    intros m1 m2 H1 H2. injection H1 as <-. injection H2 as <-. simpl. auto.
  - split; [tauto | discriminate].
Qed.

Lemma same_month_events_coincide_witness :
  nearestPriceDate sampleFns sampleEvent sampleChart
  = nearestPriceDate sampleFns
      {| edate := "2020-01-31"; etitle := "Month end"; etype := "policy" |}
      sampleChart.
Proof.
  refine (proj1 (@same_month_events_coincide sampleFns sampleChart sampleEvent
                   {| edate := "2020-01-31"; etitle := "Month end";
                      etype := "policy" |} _)).
  exists 2020%Z, 0%Z, 15%Z, 31%Z. split; reflexivity.
Defined.

Lemma eventMarkers_chart_cons (fns : DateFns) (chart : list ChartPoint)
      (ev : Event) (evs : list Event) :
  eventMarkers fns chart (ev :: evs)
  = match marker fns chart ev with
    | Some m => m :: eventMarkers fns chart evs
    | None => eventMarkers fns chart evs
    end.
Proof. unfold eventMarkers. simpl. now destruct (marker fns chart ev). Qed.

Lemma findFrom_existsb (A : Type) (f : A -> bool) (l : list A) :
  forall i, existsb f l = match findFrom f i l with Some _ => true | None => false end.
Proof.
  induction l as [| a l IH]; intros i; simpl; [reflexivity |].
  destruct (f a); [reflexivity | apply IH].
Qed.

(** X13: the markers are, in the order of the events and with
    repetitions kept, the events that have a price point in their
    month; every marker's position [x] is an index into the chart
    data, the point there has the marker's chart date, and its price
    is both the marker's [chartPrice] and its [y]. *)
Theorem eventMarkers_in_order_within_chart :
  forall (fns : DateFns) (chart : list ChartPoint) (events : list Event),
    map event (eventMarkers fns chart events)
    = filter (fun ev => existsb (sameMonth (parseISO fns (edate ev))) chart) events
    /\ Forall (fun m =>
                 (x m < List.length chart)%nat
                 /\ exists p, nth_error chart (x m) = Some p
                              /\ date p = chartDate m
                              /\ price p = chartPrice m
                              /\ y m = chartPrice m)
              (eventMarkers fns chart events).
Proof.
  intros fns chart events. split.
  - induction events as [| ev evs IH]; [reflexivity |].
    rewrite eventMarkers_chart_cons. simpl.
    rewrite (findFrom_existsb (sameMonth (parseISO fns (edate ev))) chart 0).
    unfold marker, nearestPriceDate.
    destruct (findFrom (sameMonth (parseISO fns (edate ev))) 0 chart) as [[i p] |];
      simpl; now rewrite IH.
  - apply Forall_forall. intros m Hm.
    apply filterBoolean_In, in_map_iff in Hm. destruct Hm as (ev & Hmk & _).
    unfold marker in Hmk.
    destruct (nearestPriceDate fns ev chart) as [[i p] |] eqn:E; [| discriminate].
    injection Hmk as <-. simpl.
    unfold nearestPriceDate in E. apply findFrom_some in E.
    destruct E as (_ & Hnth & _ & _). rewrite Nat.sub_0_r in Hnth.
    split.
    + apply nth_error_Some. congruence.
    + exists p. auto.
Qed.

End ChartData.

(** ** The response interceptor and fetchDashboardData *)

Section FetchDashboardData.
Import Js DashboardPage.

Lemma orString_nonEmpty (x : option string) (rest : string) :
  nonEmpty rest -> nonEmpty (Api.orString x rest).
Proof.
  intros H. unfold Api.orString. destruct x as [s |]; [| exact H].
  destruct (String.eqb s EmptyString) eqn:E; [exact H | exact E].
Qed.

Lemma rejectionMessage_nonEmpty (e : Api.AxiosError) :
  nonEmpty (Api.rejectionMessage e).
Proof.
  unfold Api.rejectionMessage. repeat apply orString_nonEmpty. reflexivity.
Qed.

Lemma orString_falsy (x : option string) (rest : string) :
  Api.orString x EmptyString = EmptyString -> Api.orString x rest = rest.
Proof.
  unfold Api.orString. destruct x as [s |]; [| reflexivity].
  destruct (String.eqb s EmptyString) eqn:E; [reflexivity |].
  intros ->. discriminate.
Qed.

Lemma orString_truthy (s rest : string) :
  nonEmpty s -> Api.orString (Some s) rest = s.
Proof. unfold Api.orString, nonEmpty. now intros ->. Qed.

(** X14: the message the response interceptor rejects with is never
    empty: it is the first non-empty one of [response.data.error],
    [response.data.message] and the error's own [message], and
    'Request failed' when none of them is there. *)
Theorem rejectionMessage_priority :
  forall e : Api.AxiosError,
    nonEmpty (Api.rejectionMessage e)
    /\ (forall s, Api.response_data_error e = Some s -> nonEmpty s ->
          Api.rejectionMessage e = s)
    /\ (forall s, Api.orString (Api.response_data_error e) EmptyString = EmptyString ->
          Api.response_data_message e = Some s -> nonEmpty s ->
          Api.rejectionMessage e = s)
    /\ (forall s, Api.orString (Api.response_data_error e) EmptyString = EmptyString ->
          Api.orString (Api.response_data_message e) EmptyString = EmptyString ->
          Api.message e = Some s -> nonEmpty s ->
          Api.rejectionMessage e = s)
    /\ (Api.orString (Api.response_data_error e) EmptyString = EmptyString ->
        Api.orString (Api.response_data_message e) EmptyString = EmptyString ->
        Api.orString (Api.message e) EmptyString = EmptyString ->
        Api.rejectionMessage e = "Request failed"%string).
Proof.
  intros e. split; [apply rejectionMessage_nonEmpty |].
  unfold Api.rejectionMessage.
  split; [| split; [| split]].
  - intros s -> Hs. now apply orString_truthy.
  - intros s Ha -> Hs. rewrite (orString_falsy _ _ Ha). now apply orString_truthy.
  - intros s Ha Hb -> Hs. rewrite (orString_falsy _ _ Ha), (orString_falsy _ _ Hb).
    now apply orString_truthy.
  - intros Ha Hb Hc.
    now rewrite (orString_falsy _ _ Ha), (orString_falsy _ _ Hb),
      (orString_falsy _ _ Hc).
Qed.

Lemma caught_nonEmpty (msg : string) :
  nonEmpty (if String.eqb msg EmptyString then "Failed to load data"%string else msg).
Proof.
  unfold nonEmpty. destruct (String.eqb msg EmptyString) eqn:E; [reflexivity | exact E].
Qed.

Lemma earlyReturn_error (msg : string) (st : State) :
  nonEmpty msg ->
  earlyReturn (setLoading false (setError (Some msg) st)) = Some (ErrorScreen msg).
Proof. unfold earlyReturn, nonEmpty. simpl. now intros ->. Qed.

Ltac absurd_call :=
  repeat match goal with
         | H : answered _ |- _ => destruct H as [? H]; try discriminate
         | H : delivered _ |- _ => destruct H as [? H]; try discriminate
         end.

Ltac stops :=
  right; split;
  [ intros (H1 & H2 & H3 & H4 & H5 & H6); simpl in *; absurd_call
  | eexists; eexists; split; [apply caught_nonEmpty | reflexivity] ].

(** The two ways [fetchDashboardData] ends. *)
Lemma fetchDashboardData_cases (typeError : string -> string) (c : Calls)
      (st : State) :
  (allLoaded c
   /\ loading (fetchDashboardData typeError c st) = false
   /\ error (fetchDashboardData typeError c st) = None)
  \/ (~ allLoaded c
      /\ exists msg st0,
           nonEmpty msg
           /\ fetchDashboardData typeError c st
              = setLoading false (setError (Some msg) st0)).
Proof.
  destruct c as [s p e cp r k]. unfold allLoaded, fetchDashboardData, tryBlock.
  destruct s as [[| d1] | e1]; [stops | | stops].
  destruct p as [[| d2] | e2]; [stops | | stops].
  destruct e as [[| d3] | e3]; [stops | | stops].
  destruct cp as [[| [d4 |]] | e4]; [stops | | stops | stops].
  destruct r as [[| [d5 |]] | e5]; [stops | | stops | stops].
  destruct k as [[| [d6 |]] | e6]; [stops | | stops | stops].
  left. simpl. split; [| split; reflexivity].
  repeat split; eexists; reflexivity.
Qed.

(** X15: [fetchDashboardData] always ends with [loading] off; it leaves
    no error exactly when all six calls resolved with a body and the
    change-point, returns and correlation bodies carry [data], and then
    neither early return of the component is taken; in every other
    case, a failed correlation call included, a non-empty error message
    is set and the component returns the error screen with that
    message before it builds anything of the page. *)
Theorem fetchDashboardData_all_or_error :
  forall (typeError : string -> string) (c : Calls) (st : State),
    let st' := fetchDashboardData typeError c st in
    loading st' = false
    /\ (error st' = None <-> allLoaded c)
    /\ (allLoaded c -> earlyReturn st' = None)
    /\ (~ allLoaded c ->
        exists msg, nonEmpty msg /\ error st' = Some msg
                    /\ earlyReturn st' = Some (ErrorScreen msg)).
Proof.
  intros typeError c st st'. subst st'.
  destruct (fetchDashboardData_cases typeError c st)
    as [(Hall & Hl & He) | (Hnot & msg & st0 & Hmsg & Heq)].
  - split; [exact Hl |]. split; [tauto |]. split; [| tauto].
    intros _. unfold earlyReturn. now rewrite Hl, He.
  - rewrite Heq. split; [reflexivity |].
    split; [split; [discriminate | tauto] |].
    split; [tauto |].
    intros _. exists msg. split; [exact Hmsg |]. split; [reflexivity |].
    now apply earlyReturn_error.
Qed.

(** X16: a rejected call stops the load where it stands, whichever of
    the six it is: what the calls before it delivered is stored, the
    state behind it keeps its previous value whatever the later calls
    would have answered, [loading] is off and the error is the
    interceptor's message.  The six conjuncts are the six calls, in
    order: summary, prices, events, change points, returns,
    correlation. *)
Theorem fetchDashboardData_partial_update :
  forall (typeError : string -> string) (c : Calls) (st : State),
    (forall e, getAnalysisSummary c = RejectedWith e ->
       fetchDashboardData typeError c st
       = {| loading := false; error := Some (Api.rejectionMessage e);
            summaryData := summaryData st; priceData := priceData st;
            events := events st; changePoints := changePoints st;
            avgVolatility := avgVolatility st;
            correlations := correlations st |})
    /\ (forall d1 e,
          getAnalysisSummary c = Resolved (WithData d1) ->
          getPrices c = RejectedWith e ->
          fetchDashboardData typeError c st
          = {| loading := false; error := Some (Api.rejectionMessage e);
               summaryData := d1; priceData := priceData st;
               events := events st; changePoints := changePoints st;
               avgVolatility := avgVolatility st;
               correlations := correlations st |})
    /\ (forall d1 d2 e,
          getAnalysisSummary c = Resolved (WithData d1) ->
          getPrices c = Resolved (WithData d2) ->
          getEvents c = RejectedWith e ->
          fetchDashboardData typeError c st
          = {| loading := false; error := Some (Api.rejectionMessage e);
               summaryData := d1; priceData := d2;
               events := events st; changePoints := changePoints st;
               avgVolatility := avgVolatility st;
               correlations := correlations st |})
    /\ (forall d1 d2 d3 e,
          getAnalysisSummary c = Resolved (WithData d1) ->
          getPrices c = Resolved (WithData d2) ->
          getEvents c = Resolved (WithData d3) ->
          getChangePoints c = RejectedWith e ->
          fetchDashboardData typeError c st
          = {| loading := false; error := Some (Api.rejectionMessage e);
               summaryData := d1; priceData := d2; events := d3;
               changePoints := changePoints st;
               avgVolatility := avgVolatility st;
               correlations := correlations st |})
    /\ (forall d1 d2 d3 cp e,
          getAnalysisSummary c = Resolved (WithData d1) ->
          getPrices c = Resolved (WithData d2) ->
          getEvents c = Resolved (WithData d3) ->
          getChangePoints c = Resolved (WithData (Some cp)) ->
          getReturns c = RejectedWith e ->
          fetchDashboardData typeError c st
          = {| loading := false; error := Some (Api.rejectionMessage e);
               summaryData := d1; priceData := d2; events := d3;
               changePoints := change_points cp;
               avgVolatility := avgVolatility st;
               correlations := correlations st |})
    /\ (forall d1 d2 d3 cp r e,
          getAnalysisSummary c = Resolved (WithData d1) ->
          getPrices c = Resolved (WithData d2) ->
          getEvents c = Resolved (WithData d3) ->
          getChangePoints c = Resolved (WithData (Some cp)) ->
          getReturns c = Resolved (WithData (Some r)) ->
          getEventCorrelation c = RejectedWith e ->
          fetchDashboardData typeError c st
          = {| loading := false; error := Some (Api.rejectionMessage e);
               summaryData := d1; priceData := d2; events := d3;
               changePoints := change_points cp;
               avgVolatility := Dashboard.avgVolatility (volatility r);
               correlations := correlations st |}).
Proof.
  intros typeError c st.
  assert (Hmsg : forall e,
            (if String.eqb (Api.rejectionMessage e) EmptyString
             then "Failed to load data"%string else Api.rejectionMessage e)
            = Api.rejectionMessage e).
  { intros e. now rewrite (rejectionMessage_nonEmpty e). }
  destruct c as [s p e cp r k]. simpl.
  unfold fetchDashboardData, tryBlock.
  split; [| split; [| split; [| split; [| split]]]].
  - intros e0 ->. simpl. now rewrite Hmsg.
  - intros d1 e0 -> ->. simpl. now rewrite Hmsg.
  - intros d1 d2 e0 -> -> ->. simpl. now rewrite Hmsg.
  - intros d1 d2 d3 e0 -> -> -> ->. simpl. now rewrite Hmsg.
  - intros d1 d2 d3 cp0 e0 -> -> -> -> ->. simpl. now rewrite Hmsg.
  - intros d1 d2 d3 cp0 r0 e0 -> -> -> -> -> ->. simpl. now rewrite Hmsg.
Qed.

End FetchDashboardData.
